(** * alx_travel_app: booking availability and payment lifecycle

    A shallow embedding of [listings/models.py], of the validation code of
    [listings/serializers.py], of the booking and payment views of
    [listings/views.py] and of the job type of [listings/tasks.py].

    Conventions of the embedding.
    - A UUID is its canonical text, so that [f'BK-{booking.booking_id}'] is a
      plain string concatenation.  A UUID that comes in with a request is
      text that the UUID field parses first; the parser is a variable of the
      section on the views.
    - A [date] is its proleptic ordinal ([date.toordinal()]); the difference
      of two dates in days is the difference of the ordinals.
    - A [Decimal] with two places is an integer number of hundredths.
    - The database is a pair of tables.  Django runs in autocommit mode and
      the source never opens [transaction.atomic]: every [save()] and every
      [objects.create()] is a commit of its own.  A view therefore returns,
      besides its outcome and the final world, the world as it stood right
      after each of its commits, in order: the states in which a request
      that stops half-way leaves the system.
    - The reply of the payment gateway is an input of the view that asks for
      it; the request sent is appended to the [outbox] of the world.
    - Attribute access on a model instance goes through the table of names
      the model class declares (plus the ones Django derives from the fields:
      [pk] and [<fk>_id]); any other name raises [AttributeError].  The
      settings object exposes the upper-case names of the settings module
      and no other.
    - Between two requests to the three views the tables may be rewritten by
      any other means (the generic actions of the viewsets, the admin site,
      the seed command), within the constraints of the schema. *)

From Stdlib Require Import ZArith List Ascii String Bool Lia.
Import ListNotations.
Local Open Scope string_scope.
Local Open Scope Z_scope.

Definition uuid := string.
Definition date := Z.
Definition decimal := Z.

(** ** Exceptions and results *)

Inductive exn :=
| ValidationError (msg : string)
| DoesNotExist (model : string)
| IntegrityError (constraint : string)
| AttributeError (cls attr : string)
| KeyError (key : string)
| TypeError (msg : string)
| RequestException (msg : string).

Inductive result (A : Type) :=
| Ok (a : A)
| Raise (e : exn).
Arguments Ok {A} a.
Arguments Raise {A} e.

Definition rbind {A B} (r : result A) (k : A -> result B) : result B :=
  match r with
  | Ok a => k a
  | Raise e => Raise e
  end.

(** ** models.py *)

Module User.
Record t := {
  user_id : uuid;
  email : string;
  first_name : string;
  last_name : string;
  phone_number : option string;
  role : string
}.
End User.

Module Listing.
Record t := {
  property_id : uuid;
  host : User.t;
  name : string;
  description : string;
  location : string;
  pricepernight : decimal
}.
End Listing.

Module Booking.
(** STATUS_CHOICES *)
Inductive status_choice := pending | confirmed | canceled.

Definition status_eqb (a b : status_choice) : bool :=
  match a, b with
  | pending, pending | confirmed, confirmed | canceled, canceled => true
  | _, _ => false
  end.

Definition status_str (s : status_choice) : string :=
  match s with
  | pending => "pending"
  | confirmed => "confirmed"
  | canceled => "canceled"
  end.

(** The listing a booking points to is never written by the operations
    below, so the row carries it by value; the foreign key is its
    [property_id]. *)
Record t := {
  booking_id : uuid;
  property : Listing.t;
  user : User.t;
  start_date : date;
  end_date : date;
  status : status_choice
}.

(** [number_of_nights]: both date columns are NOT NULL, so the guard
    [if self.start_date and self.end_date] holds for every row. *)
Definition number_of_nights (self : t) : Z :=
  end_date self - start_date self.

Definition total_price (self : t) : decimal :=
  number_of_nights self * Listing.pricepernight (property self).

Definition set_status (self : t) (s : status_choice) : t :=
  {| booking_id := booking_id self; property := property self;
     user := user self; start_date := start_date self;
     end_date := end_date self; status := s |}.

Definition set_dates (self : t) (s e : date) : t :=
  {| booking_id := booking_id self; property := property self;
     user := user self; start_date := s; end_date := e;
     status := status self |}.
End Booking.

Module Payment.
(** PAYMENT_STATUS_CHOICES *)
Inductive status_choice := pending | completed | failed.

Definition status_str (s : status_choice) : string :=
  match s with
  | pending => "pending"
  | completed => "completed"
  | failed => "failed"
  end.

(** [booking] is the one-to-one column: the [booking_id] of the row it
    points to. *)
Record t := {
  payment_id : uuid;
  booking : uuid;
  amount : decimal;
  transaction_id : option string;
  booking_reference : string;
  status : status_choice;
  payment_method : string
}.

Definition set_status (self : t) (s : status_choice) : t :=
  {| payment_id := payment_id self; booking := booking self;
     amount := amount self; transaction_id := transaction_id self;
     booking_reference := booking_reference self; status := s;
     payment_method := payment_method self |}.

Definition set_transaction_id (self : t) (tx : option string) : t :=
  {| payment_id := payment_id self; booking := booking self;
     amount := amount self; transaction_id := tx;
     booking_reference := booking_reference self; status := status self;
     payment_method := payment_method self |}.
End Payment.

(** ** The database *)

Record DB := {
  bookings : list Booking.t;
  payments : list Payment.t
}.

Definition empty_db : DB := {| bookings := []; payments := [] |}.

(** [Booking.objects.get(booking_id=...)] for a UUID value: the row whose key
    has the same canonical text. *)
Definition Booking_objects_get (d : DB) (id : uuid) : result Booking.t :=
  match find (fun b => Booking.booking_id b =? id)%string (bookings d) with
  | Some b => Ok b
  | None => Raise (DoesNotExist "Booking")
  end.

(** [Payment.objects.get(booking_reference=...)] *)
Definition Payment_objects_get (d : DB) (ref : string) : result Payment.t :=
  match find (fun p => Payment.booking_reference p =? ref)%string (payments d) with
  | Some p => Ok p
  | None => Raise (DoesNotExist "Payment")
  end.

(** UPDATE of the row with the same primary key. *)
Definition replace_booking (b : Booking.t) (l : list Booking.t) : list Booking.t :=
  map (fun x => if (Booking.booking_id x =? Booking.booking_id b)%string then b else x) l.

Definition replace_payment (p : Payment.t) (l : list Payment.t) : list Payment.t :=
  map (fun x => if (Payment.payment_id x =? Payment.payment_id p)%string then p else x) l.

Definition has_booking_pk (id : uuid) (l : list Booking.t) : bool :=
  existsb (fun x => Booking.booking_id x =? id)%string l.

Definition has_payment_pk (id : uuid) (l : list Payment.t) : bool :=
  existsb (fun x => Payment.payment_id x =? id)%string l.

(** The unique columns of [Payment]: [booking] (OneToOneField) and
    [booking_reference] (unique=True).  A row [p] clashes with another row
    that holds the same value in one of them. *)
Definition clashes_booking (p : Payment.t) (l : list Payment.t) : bool :=
  existsb (fun x => negb (Payment.payment_id x =? Payment.payment_id p)%string
                    && (Payment.booking x =? Payment.booking p)%string) l.

Definition clashes_reference (p : Payment.t) (l : list Payment.t) : bool :=
  existsb (fun x => negb (Payment.payment_id x =? Payment.payment_id p)%string
                    && (Payment.booking_reference x =? Payment.booking_reference p)%string) l.

(** [booking.save()]: UPDATE when the key is in the table, INSERT otherwise. *)
Definition Booking_save (b : Booking.t) (d : DB) : result DB :=
  if has_booking_pk (Booking.booking_id b) (bookings d)
  then Ok {| bookings := replace_booking b (bookings d); payments := payments d |}
  else Ok {| bookings := b :: bookings d; payments := payments d |}.

(** [Booking.objects.create(...)]: INSERT only. *)
Definition Booking_insert (b : Booking.t) (d : DB) : result DB :=
  if has_booking_pk (Booking.booking_id b) (bookings d)
  then Raise (IntegrityError "booking.booking_id")
  else Ok {| bookings := b :: bookings d; payments := payments d |}.

Definition Payment_check_unique (p : Payment.t) (d : DB) : result unit :=
  if clashes_booking p (payments d) then Raise (IntegrityError "payment.booking_id")
  else if clashes_reference p (payments d) then Raise (IntegrityError "payment.booking_reference")
  else Ok tt.

(** [payment.save()] *)
Definition Payment_save (p : Payment.t) (d : DB) : result DB :=
  rbind (Payment_check_unique p d) (fun _ =>
  if has_payment_pk (Payment.payment_id p) (payments d)
  then Ok {| bookings := bookings d; payments := replace_payment p (payments d) |}
  else Ok {| bookings := bookings d; payments := p :: payments d |}).

(** [Payment.objects.create(...)] *)
Definition Payment_insert (p : Payment.t) (d : DB) : result DB :=
  if has_payment_pk (Payment.payment_id p) (payments d)
  then Raise (IntegrityError "payment.payment_id")
  else rbind (Payment_check_unique p d) (fun _ =>
       Ok {| bookings := bookings d; payments := p :: payments d |}).

(** ** Python values and attribute access *)

(** The values that the views put into dictionaries.  [VFStr] is an f-string
    (or [str(x)]) kept as its pieces; [VOpaque] stands for a value the
    embedding does not look into (timestamps, password hashes, managers). *)
#[warnings="-register-all"] Inductive pyval :=
| VNone
| VStr (s : string)
| VInt (z : Z)
| VDate (d : date)
| VDecimal (c : decimal)
| VOpaque
| VUser (u : User.t)
| VListing (l : Listing.t)
| VBooking (b : Booking.t)
| VPayment (p : Payment.t)
| VFStr (pieces : list pyval)
| VDict (items : list (string * pyval)).

Definition VOptStr (o : option string) : pyval :=
  match o with
  | Some s => VStr s
  | None => VNone
  end.

Definition lookup_attr (cls name : string) (attrs : list (string * result pyval)) : result pyval :=
  match find (fun kv => fst kv =? name)%string attrs with
  | Some kv => snd kv
  | None => Raise (AttributeError cls name)
  end.

(** class User(AbstractUser): the declared columns, [username = None], and
    the columns inherited from AbstractUser. *)
Definition User_attrs (u : User.t) : list (string * result pyval) :=
  [ ("user_id", Ok (VStr (User.user_id u)));
    ("pk", Ok (VStr (User.user_id u)));
    ("username", Ok VNone);
    ("email", Ok (VStr (User.email u)));
    ("phone_number", Ok (VOptStr (User.phone_number u)));
    ("role", Ok (VStr (User.role u)));
    ("created_at", Ok VOpaque);
    ("updated_at", Ok VOpaque);
    ("first_name", Ok (VStr (User.first_name u)));
    ("last_name", Ok (VStr (User.last_name u)));
    ("password", Ok VOpaque);
    ("last_login", Ok VOpaque);
    ("is_superuser", Ok VOpaque);
    ("is_staff", Ok VOpaque);
    ("is_active", Ok VOpaque);
    ("date_joined", Ok VOpaque);
    ("listings", Ok VOpaque);
    ("bookings", Ok VOpaque);
    ("reviews", Ok VOpaque) ].

(** class Listing(models.Model) *)
Definition Listing_attrs (l : Listing.t) : list (string * result pyval) :=
  [ ("property_id", Ok (VStr (Listing.property_id l)));
    ("pk", Ok (VStr (Listing.property_id l)));
    ("host", Ok (VUser (Listing.host l)));
    ("host_id", Ok (VStr (User.user_id (Listing.host l))));
    ("name", Ok (VStr (Listing.name l)));
    ("description", Ok (VStr (Listing.description l)));
    ("location", Ok (VStr (Listing.location l)));
    ("pricepernight", Ok (VDecimal (Listing.pricepernight l)));
    ("created_at", Ok VOpaque);
    ("updated_at", Ok VOpaque);
    ("bookings", Ok VOpaque);
    ("reviews", Ok VOpaque) ].

(** class Booking(models.Model); [payment] is the reverse side of
    [Payment.booking] (related_name='payment'). *)
Definition Booking_attrs (d : DB) (b : Booking.t) : list (string * result pyval) :=
  [ ("booking_id", Ok (VStr (Booking.booking_id b)));
    ("pk", Ok (VStr (Booking.booking_id b)));
    ("property", Ok (VListing (Booking.property b)));
    ("property_id", Ok (VStr (Listing.property_id (Booking.property b))));
    ("user", Ok (VUser (Booking.user b)));
    ("user_id", Ok (VStr (User.user_id (Booking.user b))));
    ("start_date", Ok (VDate (Booking.start_date b)));
    ("end_date", Ok (VDate (Booking.end_date b)));
    ("status", Ok (VStr (Booking.status_str (Booking.status b))));
    ("created_at", Ok VOpaque);
    ("updated_at", Ok VOpaque);
    ("number_of_nights", Ok (VInt (Booking.number_of_nights b)));
    ("total_price", Ok (VDecimal (Booking.total_price b)));
    ("payment",
      match find (fun p => Payment.booking p =? Booking.booking_id b)%string (payments d) with
      | Some p => Ok (VPayment p)
      | None => Raise (DoesNotExist "Payment")
      end) ].

(** class Payment(models.Model) *)
Definition Payment_attrs (d : DB) (p : Payment.t) : list (string * result pyval) :=
  [ ("payment_id", Ok (VStr (Payment.payment_id p)));
    ("pk", Ok (VStr (Payment.payment_id p)));
    ("booking", rbind (Booking_objects_get d (Payment.booking p)) (fun b => Ok (VBooking b)));
    ("booking_id", Ok (VStr (Payment.booking p)));
    ("amount", Ok (VDecimal (Payment.amount p)));
    ("transaction_id", Ok (VOptStr (Payment.transaction_id p)));
    ("booking_reference", Ok (VStr (Payment.booking_reference p)));
    ("status", Ok (VStr (Payment.status_str (Payment.status p))));
    ("payment_method", Ok (VStr (Payment.payment_method p)));
    ("created_at", Ok VOpaque);
    ("updated_at", Ok VOpaque) ].

(** [obj.name] *)
Definition getattr (d : DB) (obj : pyval) (name : string) : result pyval :=
  match obj with
  | VUser u => lookup_attr "User" name (User_attrs u)
  | VListing l => lookup_attr "Listing" name (Listing_attrs l)
  | VBooking b => lookup_attr "Booking" name (Booking_attrs d b)
  | VPayment p => lookup_attr "Payment" name (Payment_attrs d p)
  | VNone => Raise (AttributeError "NoneType" name)
  | VStr _ | VFStr _ => Raise (AttributeError "str" name)
  | VInt _ => Raise (AttributeError "int" name)
  | VDate _ => Raise (AttributeError "date" name)
  | VDecimal _ => Raise (AttributeError "Decimal" name)
  | VDict _ => Raise (AttributeError "dict" name)
  | VOpaque => Raise (AttributeError "object" name)
  end.

(** ** The world and the monad of the views *)

(** tasks.py: the one job type of the task queue. *)
Inductive Job :=
| send_booking_confirmation_email (booking_id : pyval).

(** An HTTP request sent to the payment gateway. *)
Record GatewayRequest := {
  gw_method : string;
  gw_url : string;
  gw_headers : list (string * pyval);
  gw_json : option pyval
}.

Record World := {
  db : DB;
  task_queue : list Job;
  outbox : list GatewayRequest
}.

Definition with_db (w : World) (d : DB) : World :=
  {| db := d; task_queue := task_queue w; outbox := outbox w |}.

(** A computation returns its outcome, the world it leaves and the world as
    it stood after each of its writes, oldest first. *)
Definition M (A : Type) : Type := World -> result A * World * list World.

Definition ret {A} (a : A) : M A := fun w => (Ok a, w, []).

Definition raise {A} (e : exn) : M A := fun w => (Raise e, w, []).

Definition bind {A B} (m : M A) (k : A -> M B) : M B :=
  fun w =>
    match m w with
    | (Ok a, w1, h1) =>
        match k a w1 with
        | (r, w2, h2) => (r, w2, (h1 ++ h2)%list)
        end
    | (Raise e, w1, h1) => (Raise e, w1, h1)
    end.

Declare Scope view_scope.
Delimit Scope view_scope with view.
Notation "x <- m ;; k" := (bind m (fun x => k))
  (at level 100, m at next level, right associativity) : view_scope.
Notation "m ;;; k" := (bind m (fun _ => k))
  (at level 100, right associativity) : view_scope.
Local Open Scope view_scope.

Definition lift {A} (r : result A) : M A := fun w => (r, w, []).

Definition get_db : M DB := fun w => (Ok (db w), w, []).

(** One write, committed on its own. *)
Definition commit (f : DB -> result DB) : M unit :=
  fun w =>
    match f (db w) with
    | Ok d' => (Ok tt, with_db w d', [with_db w d'])
    | Raise e => (Raise e, w, [])
    end.

Definition attr (obj : pyval) (name : string) : M pyval :=
  fun w => (getattr (db w) obj name, w, []).

(** [task.delay(arg)]: the job goes to the broker; the AsyncResult handle it
    returns is dropped by the caller. *)
Definition delay (j : Job) : M unit :=
  fun w => (Ok tt, {| db := db w; task_queue := (task_queue w ++ [j])%list; outbox := outbox w |}, []).

(** [try: body except requests.exceptions.RequestException as e: handler] *)
Definition try_except_RequestException {A} (body : M A) (handler : string -> M A) : M A :=
  fun w =>
    match body w with
    | (Raise (RequestException msg), w1, h1) =>
        match handler msg w1 with
        | (r, w2, h2) => (r, w2, (h1 ++ h2)%list)
        end
    | other => other
    end.

(** *** The payment gateway *)

(** The decoded JSON body of a gateway reply: [status], [message] and the
    inner object [data]. *)
Record ResponseData := {
  rd_status : option string;
  rd_message : option string;
  rd_data : option (list (string * string))
}.

(** What comes back for a request: no HTTP response at all, a response whose
    body is JSON, or a response whose body is not. *)
Inductive GatewayReply :=
| ConnectionFailed (msg : string)
| HttpReply (status_code : Z) (json : ResponseData)
| HttpReplyNotJson (status_code : Z) (msg : string).

(** [response_data['data'][key]] *)
Definition rd_data_item (rd : ResponseData) (key : string) : result string :=
  match rd_data rd with
  | None => Raise (KeyError "data")
  | Some items =>
      match find (fun kv => fst kv =? key)%string items with
      | Some kv => Ok (snd kv)
      | None => Raise (KeyError key)
      end
  end.

(** [requests.post] / [requests.get] followed by [response.json()], which
    raises [requests.exceptions.JSONDecodeError], a RequestException, on a
    body that is not JSON. *)
Definition requests_send (req : GatewayRequest) (reply : GatewayReply) : M (Z * ResponseData) :=
  fun w =>
    let w' := {| db := db w; task_queue := task_queue w; outbox := (outbox w ++ [req])%list |} in
    match reply with
    | ConnectionFailed msg => (Raise (RequestException msg), w', [])
    | HttpReply code rd => (Ok (code, rd), w', [])
    | HttpReplyNotJson _ msg => (Raise (RequestException msg), w', [])
    end.

(** rest_framework.response.Response *)
Inductive Response :=
| mkResponse (data : list (string * pyval)) (http_status : Z).

Definition HTTP_200_OK := 200.
Definition HTTP_400_BAD_REQUEST := 400.
Definition HTTP_404_NOT_FOUND := 404.
Definition HTTP_500_INTERNAL_SERVER_ERROR := 500.

(** ** Validation: models.py and serializers.py *)

Definition msg_date_order : string := "End date must be after start date.".
Definition msg_already_booked : string :=
  "This property is already booked for the selected dates.".

(** [queryset.exists()] *)
Definition qs_exists {A} (qs : list A) : bool :=
  match qs with
  | [] => false
  | _ :: _ => true
  end.

(** Booking.clean (models.py) *)
Definition Booking_clean (d : DB) (self : Booking.t) : result unit :=
  if Booking.start_date self >=? Booking.end_date self
  then Raise (ValidationError msg_date_order)
  else
    let overlapping_bookings :=
      filter (fun b =>
                (Listing.property_id (Booking.property b)
                   =? Listing.property_id (Booking.property self))%string
                && (Booking.start_date b <? Booking.end_date self)
                && (Booking.end_date b >? Booking.start_date self))
             (bookings d) in
    if qs_exists overlapping_bookings
    then Raise (ValidationError msg_already_booked)
    else Ok tt.

(** The keys of [attrs] that [validate] reads. *)
Record Attrs := {
  attrs_start_date : option date;
  attrs_end_date : option date;
  attrs_property_id : option uuid
}.

(** BookingDetailSerializer.validate (serializers.py); [instance] is
    [self.instance], set when the serializer updates an existing row.
    A date and a UUID are truthy whenever they are present. *)
Definition BookingDetailSerializer_validate
    (d : DB) (instance : option Booking.t) (attrs : Attrs) : result Attrs :=
  match attrs_start_date attrs, attrs_end_date attrs with
  | Some start_date, Some end_date =>
      if start_date >=? end_date
      then Raise (ValidationError msg_date_order)
      else
        match attrs_property_id attrs with
        | Some property_id =>
            let overlapping_bookings :=
              filter (fun b =>
                        (Listing.property_id (Booking.property b) =? property_id)%string
                        && (Booking.start_date b <? end_date)
                        && (Booking.end_date b >? start_date)
                        && Booking.status_eqb (Booking.status b) Booking.confirmed)
                     (bookings d) in
            let overlapping_bookings :=
              match instance with
              | Some inst =>
                  filter (fun b => negb (Booking.booking_id b =? Booking.booking_id inst)%string)
                         overlapping_bookings
              | None => overlapping_bookings
              end in
            if qs_exists overlapping_bookings
            then Raise (ValidationError msg_already_booked)
            else Ok attrs
        | None => Ok attrs
        end
  | _, _ => Ok attrs
  end.


(** ** views.py *)

(** [django.conf.settings].  [settings_module] is the namespace of the
    project's settings module, Django's defaults included.  The settings
    object copies from it the names written in upper case and nothing else:
    a lower-case name of the module, such as an [environ.Env] instance bound
    to [env], is no attribute of the object, and reading it raises
    AttributeError. *)
Record Settings := { settings_module : list (string * pyval) }.

Definition ascii_in (lo hi c : ascii) : bool :=
  (nat_of_ascii lo <=? nat_of_ascii c)%nat && (nat_of_ascii c <=? nat_of_ascii hi)%nat.

(** [str.isupper] on an ASCII name: some upper-case letter and no lower-case
    one. *)
Definition isupper (s : string) : bool :=
  let cs := list_ascii_of_string s in
  existsb (ascii_in "A" "Z") cs && negb (existsb (ascii_in "a" "z") cs).

(** The attributes that the settings object has of its own. *)
Definition settings_own_names : list string :=
  ["configured"; "configure"; "is_overridden"].

(** [settings.name] *)
Definition settings_getattr (settings : Settings) (name : string) : result pyval :=
  if existsb (String.eqb name) settings_own_names then Ok VOpaque
  else if isupper name
  then match find (fun kv => fst kv =? name)%string (settings_module settings) with
       | Some kv => Ok (snd kv)
       | None => Raise (AttributeError "Settings" name)
       end
  else Raise (AttributeError "Settings" name).

(** [f(args)]: of the values of the embedding only the opaque ones can be
    callable. *)
Definition py_call (f : pyval) (args : list pyval) : result pyval :=
  match f with
  | VOpaque => Ok VOpaque
  | _ => Raise (TypeError "object is not callable")
  end.

(** [request]: the authenticated user, the body ([request.data]), the query
    string ([request.query_params]) and the scheme and host that
    [build_absolute_uri] prefixes. *)
Record Request := {
  req_user : User.t;
  req_data : list (string * string);
  req_query_params : list (string * string);
  req_base : string
}.

(** [dict.get(key)] *)
Definition dict_get (items : list (string * string)) (key : string) : option string :=
  match find (fun kv => fst kv =? key)%string items with
  | Some kv => Some (snd kv)
  | None => None
  end.

Definition build_absolute_uri (request : Request) (path : string) : string :=
  req_base request ++ path.

(** What [serializer.validated_data] holds when [perform_create] runs: the
    writable fields of BookingListSerializer.  Of the names in [Meta.fields],
    [booking_id] (editable=False) and [created_at] (auto_now_add) are
    read-only model fields, [property_name], [property_location] and
    [guest_name] are declared read_only, [total_nights] and [total_price]
    are ReadOnlyFields; that leaves [start_date], [end_date] and [status],
    the last one optional because the column has a default.  No field
    carries the property. *)
Record validated_data := {
  vd_start_date : date;
  vd_end_date : date;
  vd_status : option Booking.status_choice
}.

(** [Booking.objects.create(property=..., user=..., start_date=...,
    end_date=..., status=...)].  [property] is a ForeignKey without
    [null=True]: the INSERT of a row without it breaks the NOT NULL
    constraint of the column.  [status] falls back to the column default;
    [new_id] is the value that [uuid.uuid4] draws for the primary key. *)
Definition Booking_objects_create
    (property : option Listing.t) (user : User.t) (start_date end_date : date)
    (status : option Booking.status_choice) (new_id : uuid) : M Booking.t :=
  match property with
  | None => raise (IntegrityError "booking.property_id")
  | Some l =>
      let booking :=
        {| Booking.booking_id := new_id;
           Booking.property := l;
           Booking.user := user;
           Booking.start_date := start_date;
           Booking.end_date := end_date;
           Booking.status := match status with
                             | Some s => s
                             | None => Booking.pending
                             end |} in
      commit (Booking_insert booking) ;;;
      ret booking
  end.

(** serializer.save(user=...), for BookingListSerializer: the class defines
    no [validate] and no [create], so this is ModelSerializer's
    [Booking.objects.create] applied to the validated data and the keyword
    argument of [save].  Neither of the two holds a property. *)
Definition BookingListSerializer_save
    (vd : validated_data) (user : User.t) (new_id : uuid) : M Booking.t :=
  Booking_objects_create None user (vd_start_date vd) (vd_end_date vd) (vd_status vd)
                         new_id.

(** BookingViewSet.perform_create *)
Definition perform_create
    (request : Request) (serializer : validated_data) (new_id : uuid) : M Booking.t :=
  booking <- BookingListSerializer_save serializer (req_user request) new_id ;;
  id <- attr (VBooking booking) "id" ;;
  delay (send_booking_confirmation_email id) ;;;
  ret booking.

Definition opt_is (o : option string) (s : string) : bool :=
  match o with
  | Some x => (x =? s)%string
  | None => false
  end.

(** ** Sample data *)

Module Sample.
Definition host : User.t :=
  {| User.user_id := "0a000000-0000-4000-8000-000000000001";
     User.email := "host@example.com"; User.first_name := "Hana";
     User.last_name := "Host"; User.phone_number := None; User.role := "host" |}.

Definition guest : User.t :=
  {| User.user_id := "0a000000-0000-4000-8000-000000000002";
     User.email := "guest@example.com"; User.first_name := "Gebre";
     User.last_name := "Guest"; User.phone_number := None; User.role := "guest" |}.

Definition villa : Listing.t :=
  {| Listing.property_id := "0b000000-0000-4000-8000-000000000001";
     Listing.host := host; Listing.name := "Lake villa";
     Listing.description := "A villa by the lake"; Listing.location := "Bahir Dar";
     Listing.pricepernight := 250000 |}.

(** Ordinals of 2024-01-01, 2024-01-04, 2024-01-05 and 2024-01-08. *)
Definition jan1 : date := 738886.
Definition jan4 : date := 738889.
Definition jan5 : date := 738890.
Definition jan8 : date := 738893.

Definition booking_x_id : uuid := "0c000000-0000-4000-8000-000000000001".
Definition booking_y_id : uuid := "0c000000-0000-4000-8000-000000000002".
Definition payment_id_1 : uuid := "0d000000-0000-4000-8000-000000000001".
Definition payment_id_2 : uuid := "0d000000-0000-4000-8000-000000000002".

(** A booking of the villa for the nights of 1 to 4 January. *)
Definition booking_x (s : Booking.status_choice) : Booking.t :=
  {| Booking.booking_id := booking_x_id; Booking.property := villa;
     Booking.user := guest; Booking.start_date := jan1;
     Booking.end_date := jan5; Booking.status := s |}.

Definition payment_x (s : Payment.status_choice) : Payment.t :=
  {| Payment.payment_id := payment_id_1; Payment.booking := booking_x_id;
     Payment.amount := 1000000; Payment.transaction_id := None;
     Payment.booking_reference := "BK-" ++ booking_x_id;
     Payment.status := s; Payment.payment_method := "chapa" |}.

Definition db_with (bs : list Booking.t) (ps : list Payment.t) : DB :=
  {| bookings := bs; payments := ps |}.

Definition world_of (d : DB) : World :=
  {| db := d; task_queue := []; outbox := [] |}.

(** A settings module that binds the key, and [env] as such modules do. *)
Definition settings : Settings :=
  {| settings_module := [("env", VOpaque);
                         ("CHAPA_SECRET_KEY", VStr "CHASECK_TEST-key")] |}.

Definition request (data query : list (string * string)) : Request :=
  {| req_user := guest; req_data := data; req_query_params := query;
     req_base := "http://testserver" |}.

Definition reply_ok (inner : string) : GatewayReply :=
  HttpReply 200 {| rd_status := Some "success"; rd_message := None;
                   rd_data := Some [("status", inner)] |}.

(** A second booking of the villa, for the nights of 4 to 7 January: it
    shares the night of 4 January with [booking_x]. *)
Definition booking_y (s : Booking.status_choice) : Booking.t :=
  {| Booking.booking_id := booking_y_id; Booking.property := villa;
     Booking.user := guest; Booking.start_date := jan4;
     Booking.end_date := jan8; Booking.status := s |}.

Definition attrs_y : Attrs :=
  {| attrs_start_date := Some jan4; attrs_end_date := Some jan8;
     attrs_property_id := Some (Listing.property_id villa) |}.

Definition create_request (s e : date) : validated_data :=
  {| vd_start_date := s; vd_end_date := e; vd_status := None |}.

Definition initiate_request : Request :=
  request [("booking_id", booking_x_id)] [].

Definition verify_request_x : Request :=
  request [] [("tx_ref", "BK-" ++ booking_x_id)].

(** A parser of UUID text in the manner of [uuid.UUID]: hyphens are dropped,
    32 hexadecimal digits are required, and the value is written back in
    lower case with its four hyphens. *)
Definition is_hex (c : ascii) : bool :=
  ascii_in "0" "9" c || ascii_in "a" "f" c || ascii_in "A" "F" c.

Definition lower (c : ascii) : ascii :=
  if ascii_in "A" "Z" c then ascii_of_nat (nat_of_ascii c + 32) else c.

Definition hyphenate (cs : list ascii) : list ascii :=
  (firstn 8 cs ++ "-"%char :: firstn 4 (skipn 8 cs)
     ++ "-"%char :: firstn 4 (skipn 12 cs)
     ++ "-"%char :: firstn 4 (skipn 16 cs)
     ++ "-"%char :: skipn 20 cs)%list.

Definition to_python (text : string) : option uuid :=
  let hex := filter (fun c => negb (Ascii.eqb c "-")) (list_ascii_of_string text) in
  if (List.length hex =? 32)%nat && forallb is_hex hex
  then Some (string_of_list_ascii (hyphenate (map lower hex)))
  else None.
End Sample.

(** Running a view: its outcome, final world and committed worlds. *)
Definition outcome {A} (x : result A * World * list World) : result A := fst (fst x).
Definition final {A} (x : result A * World * list World) : World := snd (fst x).
Definition commits {A} (x : result A * World * list World) : list World := snd x.

Definition initial_world : World :=
  {| db := empty_db; task_queue := []; outbox := [] |}.

(** The Payment row that [initiate_payment] hands to [Payment.objects.create]. *)
Definition new_payment (booking : Booking.t) (new_payment_id : uuid) : Payment.t :=
  {| Payment.payment_id := new_payment_id;
     Payment.booking := Booking.booking_id booking;
     Payment.amount := Booking.total_price booking;
     Payment.transaction_id := None;
     Payment.booking_reference := "BK-" ++ Booking.booking_id booking;
     Payment.status := Payment.pending;
     Payment.payment_method := "chapa" |}.

(** The message of the ValidationError that a UUID field raises for text it
    cannot parse. *)
Definition msg_invalid_uuid (value : string) : string :=
  "'" ++ value ++ "' is not a valid UUID.".

(** PaymentViewSet.verify_payment.  The reference is a CharField and is
    looked up as it comes.  The line that builds the headers reads
    [settings.env] and calls it with the name of the key.  [payment.booking]
    is fetched through the one-to-one column when it is first read, changed
    in memory and written back by [payment.booking.save()]; [payment.save()]
    follows as a second write. *)
Definition verify_payment
    (settings : Settings) (request : Request) (reply : GatewayReply) : M Response :=
  match dict_get (req_query_params request) "tx_ref" with
  | None | Some EmptyString =>
      ret (mkResponse [("error", VStr "Transaction reference is required")]
                      HTTP_400_BAD_REQUEST)
  | Some tx_ref =>
      d <- get_db ;;
      match Payment_objects_get d tx_ref with
      | Raise (DoesNotExist _) =>
          ret (mkResponse [("error", VStr "Payment not found")] HTTP_404_NOT_FOUND)
      | Raise e => raise e
      | Ok payment =>
          let chapa_url := "https://api.chapa.co/v1/transaction/verify/" ++ tx_ref in
          env <- lift (settings_getattr settings "env") ;;
          key <- lift (py_call env [VStr "CHAPA_SECRET_KEY"]) ;;
          let headers := [("Authorization", VFStr [VStr "Bearer "; key])] in
          try_except_RequestException
            (response <- requests_send
                           {| gw_method := "GET"; gw_url := chapa_url;
                              gw_headers := headers; gw_json := None |} reply ;;
             let response_data := snd response in
             if (fst response =? 200) && opt_is (rd_status response_data) "success"
             then
               chapa_status <- lift (rd_data_item response_data "status") ;;
               payment <-
                 (if (chapa_status =? "success")%string
                  then
                    let payment := Payment.set_status payment Payment.completed in
                    d <- get_db ;;
                    booking <- lift (Booking_objects_get d (Payment.booking payment)) ;;
                    let booking := Booking.set_status booking Booking.confirmed in
                    commit (Booking_save booking) ;;;
                    ret payment
                  else
                    ret (Payment.set_status payment Payment.failed)) ;;
               commit (Payment_save payment) ;;;
               ret (mkResponse
                      [("reference", VStr (Payment.booking_reference payment));
                       ("status", VStr (Payment.status_str (Payment.status payment)));
                       ("amount", VFStr [VDecimal (Payment.amount payment)])]
                      HTTP_200_OK)
             else
               ret (mkResponse [("error", VStr "Verification failed")]
                               HTTP_400_BAD_REQUEST))
            (fun e =>
               ret (mkResponse [("error", VStr e)] HTTP_500_INTERNAL_SERVER_ERROR))
      end
  end.

Section Views.

(** [UUIDField.to_python] on the text of a request: the canonical text of
    the UUID it denotes, or nothing when [uuid.UUID] refuses it. *)
Variable UUIDField_to_python : string -> option uuid.

(** [Booking.objects.get(booking_id=value)] for a value taken from the
    request.  An absent value is [None], which matches no row; text is
    parsed by the field before the query is built, and text that is no UUID
    raises ValidationError out of the lookup. *)
Definition Booking_objects_get_request (d : DB) (value : option string) : result Booking.t :=
  match value with
  | None => Raise (DoesNotExist "Booking")
  | Some text =>
      match UUIDField_to_python text with
      | Some id => Booking_objects_get d id
      | None => Raise (ValidationError (msg_invalid_uuid text))
      end
  end.

(** PaymentViewSet.initiate_payment; [new_payment_id] is the value that
    [uuid.uuid4] draws for the primary key of the Payment.  The view catches
    [Booking.DoesNotExist] and nothing else around the lookup. *)
Definition initiate_payment
    (settings : Settings) (request : Request) (new_payment_id : uuid)
    (reply : GatewayReply) : M Response :=
  let booking_id := dict_get (req_data request) "booking_id" in
  d <- get_db ;;
  match Booking_objects_get_request d booking_id with
  | Raise (DoesNotExist _) =>
      ret (mkResponse [("error", VStr "Booking not found")] HTTP_404_NOT_FOUND)
  | Raise e => raise e
  | Ok booking =>
      let payment :=
        {| Payment.payment_id := new_payment_id;
           Payment.booking := Booking.booking_id booking;
           Payment.amount := Booking.total_price booking;
           Payment.transaction_id := None;
           Payment.booking_reference := "BK-" ++ Booking.booking_id booking;
           Payment.status := Payment.pending;
           Payment.payment_method := "chapa" |} in
      commit (Payment_insert payment) ;;;
      let chapa_url := "https://api.chapa.co/v1/transaction/initialize" in
      env <- lift (settings_getattr settings "env") ;;
      key <- lift (py_call env [VStr "CHAPA_SECRET_KEY"]) ;;
      let headers :=
        [("Authorization", VFStr [VStr "Bearer "; key]);
         ("Content-Type", VStr "application/json")] in
      amount <- attr (VBooking booking) "total_price" ;;
      email <- attr (VUser (req_user request)) "email" ;;
      first_name <- attr (VUser (req_user request)) "first_name" ;;
      last_name <- attr (VUser (req_user request)) "last_name" ;;
      tx_ref <- attr (VPayment payment) "reference" ;;
      let callback_url := build_absolute_uri request "/api/payments/verify/" in
      let return_url :=
        match dict_get (req_data request) "return_url" with
        | Some u => u
        | None => "http://localhost:3000/payment/success"
        end in
      listing <- attr (VBooking booking) "listing" ;;
      title <- attr listing "title" ;;
      check_in_date <- attr (VBooking booking) "check_in_date" ;;
      check_out_date <- attr (VBooking booking) "check_out_date" ;;
      let payload :=
        VDict [("amount", VFStr [amount]);
               ("currency", VStr "ETB");
               ("email", email);
               ("first_name", first_name);
               ("last_name", last_name);
               ("tx_ref", tx_ref);
               ("callback_url", VStr callback_url);
               ("return_url", VStr return_url);
               ("customization",
                 VDict [("title", VFStr [VStr "Payment for "; title]);
                        ("description",
                          VFStr [VStr "Booking from "; check_in_date;
                                 VStr " to "; check_out_date])])] in
      try_except_RequestException
        (response <- requests_send
                       {| gw_method := "POST"; gw_url := chapa_url;
                          gw_headers := headers; gw_json := Some payload |} reply ;;
         let response_data := snd response in
         if (fst response =? 200) && opt_is (rd_status response_data) "success"
         then
           tx <- lift (rd_data_item response_data "tx_ref") ;;
           let payment := Payment.set_transaction_id payment (Some tx) in
           commit (Payment_save payment) ;;;
           checkout_url <- lift (rd_data_item response_data "checkout_url") ;;
           reference <- attr (VPayment payment) "reference" ;;
           ret (mkResponse [("payment_url", VStr checkout_url);
                            ("reference", reference);
                            ("status", VStr "success")] HTTP_200_OK)
         else
           let payment := Payment.set_status payment Payment.failed in
           commit (Payment_save payment) ;;;
           ret (mkResponse
                  [("error", VStr match rd_message response_data with
                                  | Some m => m
                                  | None => "Payment initiation failed"
                                  end)] HTTP_400_BAD_REQUEST))
        (fun e =>
           let payment := Payment.set_status payment Payment.failed in
           commit (Payment_save payment) ;;;
           ret (mkResponse [("error", VStr e)] HTTP_500_INTERNAL_SERVER_ERROR))
  end.

(** ** The states that can be reached *)

Inductive op :=
| OpCreateBooking (request : Request) (serializer : validated_data) (new_id : uuid)
| OpInitiatePayment (settings : Settings) (request : Request) (new_payment_id : uuid)
                    (reply : GatewayReply)
| OpVerifyPayment (settings : Settings) (request : Request) (reply : GatewayReply).

Definition run_op (o : op) (w : World) : World * list World :=
  match o with
  | OpCreateBooking request serializer new_id =>
      let x := perform_create request serializer new_id w in (final x, commits x)
  | OpInitiatePayment settings request new_payment_id reply =>
      let x := initiate_payment settings request new_payment_id reply w in
      (final x, commits x)
  | OpVerifyPayment settings request reply =>
      let x := verify_payment settings request reply w in (final x, commits x)
  end.

(** The constraints of the schema, as a check on a database: primary keys
    are unique, [Payment.booking] and [Payment.booking_reference] are
    unique, and every payment points to a booking of the table. *)
Fixpoint distinct (l : list string) : bool :=
  match l with
  | [] => true
  | x :: r => negb (existsb (String.eqb x) r) && distinct r
  end.

Definition constraints_hold (d : DB) : bool :=
  distinct (map Booking.booking_id (bookings d))
  && distinct (map Payment.payment_id (payments d))
  && distinct (map Payment.booking (payments d))
  && distinct (map Payment.booking_reference (payments d))
  && forallb (fun p => has_booking_pk (Payment.booking p) (bookings d)) (payments d).

(** A world is reachable when a sequence of steps leads to it from the empty
    one.  A step is a request to one of the three views, run to its end or
    stopped right after one of its commits, or a rewrite of the tables by
    any other means: the list, create, update and delete actions that the
    three ModelViewSets inherit (PaymentSerializer exposes every column of
    Payment), the admin site, the seed command.  All that is known of such a
    rewrite is that the database enforces the constraints of the schema on
    its result. *)
Inductive reachable : World -> Prop :=
| reach_init : reachable initial_world
| reach_done o w : reachable w -> reachable (fst (run_op o w))
| reach_stop o w w' : reachable w -> In w' (snd (run_op o w)) -> reachable w'
| reach_orm w d : reachable w -> constraints_hold d = true -> reachable (with_db w d).

(** The Payment rows of a booking. *)
Definition payments_of (d : DB) (booking_id : uuid) : list Payment.t :=
  filter (fun p => (Payment.booking p =? booking_id)%string) (payments d).

(** * Properties *)

(** ** What each view computes *)

Lemma settings_env settings :
  settings_getattr settings "env" = Raise (AttributeError "Settings" "env").
Proof. reflexivity. Qed.

Lemma getattr_Booking_id d b :
  getattr d (VBooking b) "id" = Raise (AttributeError "Booking" "id").
Proof. reflexivity. Qed.

Lemma getattr_Payment_reference d p :
  getattr d (VPayment p) "reference" = Raise (AttributeError "Payment" "reference").
Proof. reflexivity. Qed.

Lemma getattr_Booking_listing d b :
  getattr d (VBooking b) "listing" = Raise (AttributeError "Booking" "listing").
Proof. reflexivity. Qed.

Lemma getattr_Booking_check_in_date d b :
  getattr d (VBooking b) "check_in_date" = Raise (AttributeError "Booking" "check_in_date").
Proof. reflexivity. Qed.

Lemma getattr_Booking_check_out_date d b :
  getattr d (VBooking b) "check_out_date" = Raise (AttributeError "Booking" "check_out_date").
Proof. reflexivity. Qed.

(** [perform_create] in closed form: the INSERT of [serializer.save] is
    refused, whatever the request carries. *)
Lemma perform_create_run request vd new_id w :
  perform_create request vd new_id w
  = (Raise (IntegrityError "booking.property_id"), w, []).
Proof. reflexivity. Qed.

(** [initiate_payment] in closed form: after the insert, the line that
    builds the headers stops at [settings.env]. *)
Lemma initiate_payment_run settings request new_payment_id reply w :
  initiate_payment settings request new_payment_id reply w =
  match Booking_objects_get_request (db w) (dict_get (req_data request) "booking_id") with
  | Raise (DoesNotExist _) =>
      (Ok (mkResponse [("error", VStr "Booking not found")] HTTP_404_NOT_FOUND), w, [])
  | Raise e => (Raise e, w, [])
  | Ok booking =>
      match Payment_insert (new_payment booking new_payment_id) (db w) with
      | Ok d' =>
          (Raise (AttributeError "Settings" "env"), with_db w d', [with_db w d'])
      | Raise e => (Raise e, w, [])
      end
  end.
Proof.
  unfold initiate_payment, bind, get_db.
  destruct (Booking_objects_get_request (db w)
              (dict_get (req_data request) "booking_id")) as [booking|e].
  - fold (new_payment booking new_payment_id). unfold commit.
    destruct (Payment_insert (new_payment booking new_payment_id) (db w)) as [d'|e];
      reflexivity.
  - destruct e; reflexivity.
Qed.

(** [verify_payment] in closed form: once the Payment is found, the line
    that builds the headers stops at [settings.env]. *)
Lemma verify_payment_run settings request reply w :
  verify_payment settings request reply w =
  match dict_get (req_query_params request) "tx_ref" with
  | None | Some "" =>
      (Ok (mkResponse [("error", VStr "Transaction reference is required")]
                      HTTP_400_BAD_REQUEST), w, [])
  | Some tx_ref =>
      match Payment_objects_get (db w) tx_ref with
      | Ok _ => (Raise (AttributeError "Settings" "env"), w, [])
      | Raise _ =>
          (Ok (mkResponse [("error", VStr "Payment not found")] HTTP_404_NOT_FOUND), w, [])
      end
  end.
Proof.
  unfold verify_payment.
  destruct (dict_get (req_query_params request) "tx_ref") as [[|a s]|];
    [reflexivity | | reflexivity].
  unfold bind, get_db, Payment_objects_get.
  destruct (find _ (payments (db w))); reflexivity.
Qed.

(** ** Lists of keys *)

Lemma existsb_eqb_In (x : string) (l : list string) :
  existsb (String.eqb x) l = true <-> In x l.
Proof.
  rewrite existsb_exists. split.
  - intros [y [Hy Heq]]. apply String.eqb_eq in Heq. now subst.
  - intros H. exists x. split; [assumption | apply String.eqb_refl].
Qed.

Lemma distinct_NoDup (l : list string) : distinct l = true <-> NoDup l.
Proof.
  induction l as [|x r IH]; simpl.
  - split; [constructor | reflexivity].
  - rewrite andb_true_iff, negb_true_iff, IH. split.
    + intros [Hx Hr]. constructor; [|assumption].
      intro Hin. apply existsb_eqb_In in Hin. congruence.
    + intros H. inversion H as [|? ? Hx Hr]; subst. split; [|assumption].
      destruct (existsb (String.eqb x) r) eqn:E; [|reflexivity].
      apply existsb_eqb_In in E. contradiction.
Qed.

Lemma NoDup_map_inj {A} (f : A -> string) (l : list A) (x y : A) :
  NoDup (map f l) -> In x l -> In y l -> f x = f y -> x = y.
Proof.
  induction l as [|a r IH]; simpl; [contradiction|].
  intros Hnd Hx Hy Hf. inversion Hnd as [|? ? Ha Hr]; subst.
  destruct Hx as [-> | Hx], Hy as [-> | Hy].
  - reflexivity.
  - exfalso. apply Ha. rewrite Hf. now apply in_map.
  - exfalso. apply Ha. rewrite <- Hf. now apply in_map.
  - now apply IH.
Qed.

Lemma has_booking_pk_map id l :
  has_booking_pk id l = existsb (String.eqb id) (map Booking.booking_id l).
Proof.
  unfold has_booking_pk. induction l as [|x r IH]; simpl; [reflexivity|].
  now rewrite IH, (String.eqb_sym (Booking.booking_id x) id).
Qed.

Lemma has_payment_pk_map id l :
  has_payment_pk id l = existsb (String.eqb id) (map Payment.payment_id l).
Proof.
  unfold has_payment_pk. induction l as [|x r IH]; simpl; [reflexivity|].
  now rewrite IH, (String.eqb_sym (Payment.payment_id x) id).
Qed.

Lemma has_booking_pk_In b l :
  In b l -> has_booking_pk (Booking.booking_id b) l = true.
Proof.
  intros H. rewrite has_booking_pk_map. apply existsb_eqb_In. now apply in_map.
Qed.

Lemma has_payment_pk_In p l :
  In p l -> has_payment_pk (Payment.payment_id p) l = true.
Proof.
  intros H. rewrite has_payment_pk_map. apply existsb_eqb_In. now apply in_map.
Qed.

(** ** Lookups *)

Lemma Booking_objects_get_Ok d id b :
  Booking_objects_get d id = Ok b -> In b (bookings d) /\ Booking.booking_id b = id.
Proof.
  unfold Booking_objects_get.
  destruct (find _ (bookings d)) as [x|] eqn:E; [|discriminate].
  intros [= <-]. apply find_some in E. destruct E as [Hin Heq].
  apply String.eqb_eq in Heq. now split.
Qed.

Lemma Payment_objects_get_Ok d ref p :
  Payment_objects_get d ref = Ok p -> In p (payments d) /\ Payment.booking_reference p = ref.
Proof.
  unfold Payment_objects_get.
  destruct (find _ (payments d)) as [x|] eqn:E; [|discriminate].
  intros [= <-]. apply find_some in E. destruct E as [Hin Heq].
  apply String.eqb_eq in Heq. now split.
Qed.

Lemma Booking_objects_get_has_pk d id :
  has_booking_pk id (bookings d) = true -> exists b, Booking_objects_get d id = Ok b.
Proof.
  unfold has_booking_pk, Booking_objects_get. intros H.
  destruct (find _ (bookings d)) as [x|] eqn:E; [now exists x|].
  apply existsb_exists in H. destruct H as [y [Hy Heq]].
  apply (find_none _ _ E) in Hy. congruence.
Qed.

(** ** UPDATE keeps the key columns *)

Lemma map_booking_id_replace b l :
  map Booking.booking_id (replace_booking b l) = map Booking.booking_id l.
Proof.
  unfold replace_booking. induction l as [|x r IH]; simpl; [reflexivity|].
  rewrite IH. destruct (Booking.booking_id x =? Booking.booking_id b)%string eqn:E;
    [|reflexivity].
  apply String.eqb_eq in E. now rewrite E.
Qed.

Lemma replace_payment_same_key (f : Payment.t -> string) p p' l :
  NoDup (map Payment.payment_id l) -> In p l ->
  Payment.payment_id p' = Payment.payment_id p -> f p' = f p ->
  map f (replace_payment p' l) = map f l.
Proof.
  intros Hnd Hp Hpk Hf. unfold replace_payment.
  rewrite map_map. apply map_ext_in. intros x Hx.
  destruct (Payment.payment_id x =? Payment.payment_id p')%string eqn:E; [|reflexivity].
  apply String.eqb_eq in E. rewrite Hpk in E.
  now rewrite (NoDup_map_inj Payment.payment_id l x p Hnd Hx Hp E).
Qed.

(** ** The writes keep the constraints *)

Lemma constraints_hold_iff d :
  constraints_hold d = true <->
  NoDup (map Booking.booking_id (bookings d))
  /\ NoDup (map Payment.payment_id (payments d))
  /\ NoDup (map Payment.booking (payments d))
  /\ NoDup (map Payment.booking_reference (payments d))
  /\ (forall p, In p (payments d) ->
        has_booking_pk (Payment.booking p) (bookings d) = true).
Proof.
  unfold constraints_hold.
  rewrite !andb_true_iff, !distinct_NoDup, forallb_forall. tauto.
Qed.

Lemma Booking_insert_Ok b d d' :
  Booking_insert b d = Ok d' ->
  has_booking_pk (Booking.booking_id b) (bookings d) = false
  /\ d' = {| bookings := b :: bookings d; payments := payments d |}.
Proof.
  unfold Booking_insert.
  destruct (has_booking_pk (Booking.booking_id b) (bookings d)); [discriminate|].
  intros [= <-]. now split.
Qed.

Lemma Booking_save_status d b s :
  In b (bookings d) ->
  Booking_save (Booking.set_status b s) d =
  Ok {| bookings := replace_booking (Booking.set_status b s) (bookings d);
        payments := payments d |}.
Proof.
  intros Hin. unfold Booking_save.
  change (Booking.booking_id (Booking.set_status b s)) with (Booking.booking_id b).
  now rewrite (has_booking_pk_In b _ Hin).
Qed.

Lemma existsb_false_forall {A} (f : A -> bool) (l : list A) :
  (forall x, In x l -> f x = false) -> existsb f l = false.
Proof.
  intros H. destruct (existsb f l) eqn:E; [|reflexivity].
  apply existsb_exists in E. destruct E as [x [Hx Hfx]].
  rewrite (H x Hx) in Hfx. discriminate.
Qed.

Lemma existsb_clash_false p l (col : Payment.t -> string) :
  has_payment_pk (Payment.payment_id p) l = false ->
  existsb (fun x => negb (Payment.payment_id x =? Payment.payment_id p)%string
                    && (col x =? col p)%string) l = false ->
  ~ In (col p) (map col l).
Proof.
  intros Hpk Hcl Hin. apply in_map_iff in Hin. destruct Hin as [x [Hcol Hx]].
  assert (E : existsb (fun x => negb (Payment.payment_id x =? Payment.payment_id p)%string
                                && (col x =? col p)%string) l = true).
  { apply existsb_exists. exists x. split; [assumption|].
    rewrite Hcol, String.eqb_refl, andb_true_r. apply negb_true_iff.
    destruct (Payment.payment_id x =? Payment.payment_id p)%string eqn:E; [|reflexivity].
    assert (has_payment_pk (Payment.payment_id p) l = true).
    { unfold has_payment_pk. apply existsb_exists. now exists x. }
    congruence. }
  congruence.
Qed.

Lemma existsb_clash_true p q l (col : Payment.t -> string) :
  has_payment_pk (Payment.payment_id p) l = false ->
  In q l -> col q = col p ->
  existsb (fun x => negb (Payment.payment_id x =? Payment.payment_id p)%string
                    && (col x =? col p)%string) l = true.
Proof.
  intros Hpk Hq Heq. apply existsb_exists. exists q. split; [assumption|].
  rewrite Heq, String.eqb_refl, andb_true_r. apply negb_true_iff.
  destruct (Payment.payment_id q =? Payment.payment_id p)%string eqn:E; [|reflexivity].
  assert (has_payment_pk (Payment.payment_id p) l = true).
  { unfold has_payment_pk. apply existsb_exists. now exists q. }
  congruence.
Qed.

Lemma Payment_insert_Ok p d d' :
  Payment_insert p d = Ok d' ->
  has_payment_pk (Payment.payment_id p) (payments d) = false
  /\ clashes_booking p (payments d) = false
  /\ clashes_reference p (payments d) = false
  /\ d' = {| bookings := bookings d; payments := p :: payments d |}.
Proof.
  unfold Payment_insert, Payment_check_unique.
  destruct (has_payment_pk (Payment.payment_id p) (payments d)); [discriminate|].
  destruct (clashes_booking p (payments d)); [discriminate|].
  destruct (clashes_reference p (payments d)); [discriminate|].
  simpl. intros [= <-]. repeat split.
Qed.

(** INSERT keeps the constraints when the row points to a stored booking. *)
Lemma Payment_insert_constraints p d d' :
  constraints_hold d = true ->
  has_booking_pk (Payment.booking p) (bookings d) = true ->
  Payment_insert p d = Ok d' -> constraints_hold d' = true.
Proof.
  intros Hc Hfkp H.
  apply Payment_insert_Ok in H. destruct H as (Hpk & Hcb & Hcr & ->).
  apply constraints_hold_iff in Hc. destruct Hc as (Hb & Hp & Hpb & Hpr & Hfk).
  apply constraints_hold_iff. simpl. repeat split; try assumption.
  - constructor; [|assumption]. intro Hin. apply existsb_eqb_In in Hin.
    rewrite <- has_payment_pk_map in Hin. congruence.
  - constructor; [|assumption].
    exact (existsb_clash_false p _ Payment.booking Hpk Hcb).
  - constructor; [|assumption].
    exact (existsb_clash_false p _ Payment.booking_reference Hpk Hcr).
  - intros x [<- | Hx]; [assumption | now apply Hfk].
Qed.


(** INSERT is refused when a stored row holds the new key, the new booking
    or the new reference. *)
Lemma Payment_insert_refused p q d :
  In q (payments d) ->
  Payment.payment_id q = Payment.payment_id p
  \/ Payment.booking q = Payment.booking p
  \/ Payment.booking_reference q = Payment.booking_reference p ->
  exists c, Payment_insert p d = Raise (IntegrityError c).
Proof.
  intros Hq Heq. unfold Payment_insert, Payment_check_unique.
  destruct (has_payment_pk (Payment.payment_id p) (payments d)) eqn:Hpk;
    [now eexists|].
  destruct (clashes_booking p (payments d)) eqn:Hcb; [now eexists|].
  destruct (clashes_reference p (payments d)) eqn:Hcr; [now eexists|].
  exfalso. destruct Heq as [Heq | [Heq | Heq]].
  - assert (has_payment_pk (Payment.payment_id p) (payments d) = true); [|congruence].
    unfold has_payment_pk. apply existsb_exists. exists q. split; [assumption|].
    now apply String.eqb_eq.
  - pose proof (existsb_clash_true p q _ Payment.booking Hpk Hq Heq) as H.
    unfold clashes_booking in Hcb. congruence.
  - pose proof (existsb_clash_true p q _ Payment.booking_reference Hpk Hq Heq) as H.
    unfold clashes_reference in Hcr. congruence.
Qed.

Lemma payments_of_at_most_one d booking_id :
  NoDup (map Payment.booking (payments d)) ->
  (List.length (payments_of d booking_id) <= 1)%nat.
Proof.
  unfold payments_of. induction (payments d) as [|x r IH]; simpl; intros Hnd; [lia|].
  inversion Hnd as [|? ? Hx Hr]; subst.
  destruct (Payment.booking x =? booking_id)%string eqn:E; [|now apply IH].
  apply String.eqb_eq in E. simpl.
  replace (filter (fun p => (Payment.booking p =? booking_id)%string) r) with (@nil Payment.t);
    [simpl; lia|].
  symmetry. destruct (filter _ r) as [|y t] eqn:F; [reflexivity|]. exfalso.
  assert (Hy : In y (filter (fun p => (Payment.booking p =? booking_id)%string) r))
    by (rewrite F; now left).
  apply filter_In in Hy. destruct Hy as [Hyr Hyb]. apply String.eqb_eq in Hyb.
  apply Hx. rewrite E, <- Hyb. now apply in_map.
Qed.

(** ** One step of a view *)

Lemma Booking_objects_get_request_Ok d value b :
  Booking_objects_get_request d value = Ok b ->
  exists text, value = Some text
               /\ UUIDField_to_python text = Some (Booking.booking_id b)
               /\ In b (bookings d).
Proof.
  unfold Booking_objects_get_request.
  destruct value as [text|]; [|discriminate].
  destruct (UUIDField_to_python text) as [id|] eqn:E; [|discriminate].
  intros H. apply Booking_objects_get_Ok in H. destruct H as [Hin <-].
  now exists text.
Qed.

(** A request to one of the three views either leaves the world as it was
    and commits nothing, or is an [initiate_payment] that commits the insert
    of one new Payment of a stored booking, once. *)
Lemma run_op_cases o w :
  run_op o w = (w, [])
  \/ exists b new_payment_id d',
       In b (bookings (db w))
       /\ Payment_insert (new_payment b new_payment_id) (db w) = Ok d'
       /\ run_op o w = (with_db w d', [with_db w d']).
Proof.
  destruct o; cbn [run_op].
  - left. now rewrite perform_create_run.
  - rewrite initiate_payment_run.
    destruct (Booking_objects_get_request (db w)
                (dict_get (req_data request) "booking_id")) as [b|e] eqn:Hb.
    + destruct (Payment_insert (new_payment b new_payment_id) (db w)) as [d'|e] eqn:Hins.
      * right. exists b, new_payment_id, d'.
        apply Booking_objects_get_request_Ok in Hb. destruct Hb as (_ & _ & _ & Hin).
        now repeat split.
      * now left.
    + left. now destruct e.
  - left. rewrite verify_payment_run.
    destruct (dict_get (req_query_params request) "tx_ref") as [[|a s]|];
      [reflexivity | | reflexivity].
    now destruct (Payment_objects_get (db w) (String a s)).
Qed.

(** Every world of a step keeps the constraints, the task queue and the
    outbox. *)
Lemma run_op_worlds o w w' :
  constraints_hold (db w) = true ->
  w' = fst (run_op o w) \/ In w' (snd (run_op o w)) ->
  constraints_hold (db w') = true
  /\ task_queue w' = task_queue w
  /\ outbox w' = outbox w.
Proof.
  intros Hc Hw.
  destruct (run_op_cases o w) as [E | (b & pid & d' & Hin & Hins & E)];
    rewrite E in Hw; cbn [fst snd In] in Hw.
  - destruct Hw as [-> | []]. now repeat split.
  - assert (w' = with_db w d') as -> by (destruct Hw as [-> | [<- | []]]; reflexivity).
    split; [|now split].
    apply (Payment_insert_constraints (new_payment b pid) (db w) d' Hc); [|exact Hins].
    now apply has_booking_pk_In.
Qed.

(** ** Every reachable world satisfies the constraints *)

Lemma reachable_constraints w : reachable w -> constraints_hold (db w) = true.
Proof.
  induction 1 as [|o w Hr IH | o w w' Hr IH Hin | w d Hr IH Hd].
  - reflexivity.
  - now apply (run_op_worlds o w _ IH); left.
  - now apply (run_op_worlds o w w' IH); right.
  - exact Hd.
Qed.

(** ** The claims on [initiate_payment] *)


(** C8 (one Payment per Booking).  In every reachable world each booking has
    at most one Payment row, and [initiate_payment] for a booking that has a
    Payment whose status is not failed is refused by the one-to-one
    constraint: the call ends in an integrity error and the world is left as
    it was. *)
Theorem C8_one_payment_per_booking w :
  reachable w ->
  (forall booking_id, (List.length (payments_of (db w) booking_id) <= 1)%nat)
  /\ (forall settings request new_payment_id reply text id b p,
        dict_get (req_data request) "booking_id" = Some text ->
        UUIDField_to_python text = Some id ->
        Booking_objects_get (db w) id = Ok b ->
        In p (payments (db w)) ->
        Payment.booking p = id ->
        Payment.status p <> Payment.failed ->
        exists c, initiate_payment settings request new_payment_id reply w
                  = (Raise (IntegrityError c), w, [])).
Proof.
  intros Hr. pose proof (reachable_constraints w Hr) as Hc.
  apply constraints_hold_iff in Hc. destruct Hc as (_ & _ & Hpb & _ & _).
  split.
  - intros booking_id. now apply payments_of_at_most_one.
  - intros settings request new_payment_id reply text id b p Htext Hid Hb Hin Hbk _.
    rewrite initiate_payment_run. unfold Booking_objects_get_request.
    rewrite Htext, Hid, Hb.
    apply Booking_objects_get_Ok in Hb. destruct Hb as [_ Hbid].
    destruct (Payment_insert_refused (new_payment b new_payment_id) p (db w) Hin)
      as [c ->].
    + right. left. simpl. congruence.
    + now exists c.
Qed.

(** C10 (where initiate_payment stops), amended.  When the booking exists
    and the pending Payment row has been inserted, the call ends in
    AttributeError on [settings.env], in the line that builds the headers:
    the payload is never built.  Nothing has been sent to the gateway, and
    the inserted row stays in the table.  The names that the payload would
    read, [reference] on the Payment and [listing], [check_in_date] and
    [check_out_date] on the Booking, are no attributes of these models
    either. *)
Theorem C10_initiate_payment_stops_at_settings
    settings request new_payment_id reply w text id b d' :
  dict_get (req_data request) "booking_id" = Some text ->
  UUIDField_to_python text = Some id ->
  Booking_objects_get (db w) id = Ok b ->
  Payment_insert (new_payment b new_payment_id) (db w) = Ok d' ->
  outcome (initiate_payment settings request new_payment_id reply w)
  = Raise (AttributeError "Settings" "env")
  /\ outbox (final (initiate_payment settings request new_payment_id reply w)) = outbox w
  /\ db (final (initiate_payment settings request new_payment_id reply w)) = d'
  /\ commits (initiate_payment settings request new_payment_id reply w) = [with_db w d']
  /\ payments d' = new_payment b new_payment_id :: payments (db w)
  /\ Payment.status (new_payment b new_payment_id) = Payment.pending
  /\ (forall d p, getattr d (VPayment p) "reference"
                  = Raise (AttributeError "Payment" "reference"))
  /\ (forall d bk, getattr d (VBooking bk) "listing"
                   = Raise (AttributeError "Booking" "listing")
                   /\ getattr d (VBooking bk) "check_in_date"
                      = Raise (AttributeError "Booking" "check_in_date")
                   /\ getattr d (VBooking bk) "check_out_date"
                      = Raise (AttributeError "Booking" "check_out_date")).
Proof.
  intros Htext Hid Hb Hins. rewrite initiate_payment_run.
  unfold Booking_objects_get_request. rewrite Htext, Hid, Hb, Hins.
  apply Payment_insert_Ok in Hins. destruct Hins as (_ & _ & _ & ->).
  repeat split.
Qed.

(** * Further properties of the views *)

(** X6.  Whatever requests are served, no notification job ever reaches the
    task queue, and the only requests that could have gone to the payment
    gateway are the GET requests of [verify_payment]: the POST that would
    initialize a transaction is never sent.  In fact nothing is sent at
    all. *)
Theorem no_job_and_no_initialize_request w :
  reachable w ->
  task_queue w = []
  /\ (forall r, In r (outbox w) ->
        gw_method r = "GET" /\ gw_json r = None
        /\ exists tx_ref, gw_url r = "https://api.chapa.co/v1/transaction/verify/" ++ tx_ref)
  /\ outbox w = [].
Proof.
  intros Hr.
  assert (H : task_queue w = [] /\ outbox w = []).
  { induction Hr as [|o w Hr IH | o w w' Hr IH Hin | w d Hr IH Hd].
    - now split.
    - destruct (run_op_worlds o w _ (reachable_constraints w Hr) (or_introl eq_refl))
        as (_ & -> & ->). exact IH.
    - destruct (run_op_worlds o w w' (reachable_constraints w Hr) (or_intror Hin))
        as (_ & -> & ->). exact IH.
    - exact IH. }
  destruct H as [Hq Ho]. split; [exact Hq|]. split; [|exact Ho].
  intros r Hin. rewrite Ho in Hin. destruct Hin.
Qed.

(** X7.  [initiate_payment] never answers with a payment URL: a call either
    answers 404 "Booking not found" and leaves the world as it was, or ends
    in an exception.  It sends nothing to the gateway and commits at most
    once. *)
Theorem initiate_payment_never_succeeds settings request new_payment_id reply w :
  match outcome (initiate_payment settings request new_payment_id reply w) with
  | Ok r =>
      r = mkResponse [("error", VStr "Booking not found")] HTTP_404_NOT_FOUND
      /\ final (initiate_payment settings request new_payment_id reply w) = w
  | Raise _ => True
  end
  /\ outbox (final (initiate_payment settings request new_payment_id reply w)) = outbox w
  /\ (List.length (commits (initiate_payment settings request new_payment_id reply w))
      <= 1)%nat.
Proof.
  rewrite initiate_payment_run.
  destruct (Booking_objects_get_request (db w)
              (dict_get (req_data request) "booking_id")) as [b|e].
  - destruct (Payment_insert _ (db w)); unfold outcome, final, commits;
      cbn [fst snd List.length with_db outbox]; repeat split; try reflexivity; lia.
  - destruct e; unfold outcome, final, commits;
      cbn [fst snd List.length]; repeat split; try reflexivity; lia.
Qed.

(** X5.  The reference that [initiate_payment] stores is the one that
    [verify_payment] looks up: after a call that inserted its row, the
    lookup of 'BK-<booking_id>' returns that row, so a verification with
    this reference gets past the 404 answer; it then stops at
    [settings.env], like every verification of a stored Payment. *)
Theorem initiate_then_verify_finds_payment
    settings request new_payment_id reply w text id b d' settings' request' reply' :
  dict_get (req_data request) "booking_id" = Some text ->
  UUIDField_to_python text = Some id ->
  Booking_objects_get (db w) id = Ok b ->
  Payment_insert (new_payment b new_payment_id) (db w) = Ok d' ->
  dict_get (req_query_params request') "tx_ref" = Some ("BK-" ++ id) ->
  let w1 := final (initiate_payment settings request new_payment_id reply w) in
  Payment_objects_get (db w1) ("BK-" ++ id) = Ok (new_payment b new_payment_id)
  /\ verify_payment settings' request' reply' w1
     = (Raise (AttributeError "Settings" "env"), w1, []).
Proof.
  intros Htext Hid Hb Hins Htx w1.
  assert (Hw1 : w1 = with_db w d').
  { subst w1. rewrite initiate_payment_run. unfold Booking_objects_get_request.
    now rewrite Htext, Hid, Hb, Hins. }
  apply Payment_insert_Ok in Hins. destruct Hins as (_ & _ & _ & ->).
  apply Booking_objects_get_Ok in Hb. destruct Hb as [_ Hbid].
  assert (Hget : Payment_objects_get (db w1) ("BK-" ++ id)
                 = Ok (new_payment b new_payment_id)).
  { rewrite Hw1. unfold Payment_objects_get. cbn [with_db db payments find].
    cbn [new_payment Payment.booking_reference]. rewrite Hbid.
    now rewrite String.eqb_refl. }
  split; [exact Hget|].
  rewrite verify_payment_run, Htx. cbn [append]. cbn [append] in Hget.
  now rewrite Hget.
Qed.

(** X8.  Nothing in [initiate_payment] looks at the dates of the booking it
    bills: for a stored booking whose end date is before its start date, on
    a listing with a positive nightly price, the Payment row it inserts
    carries a negative amount. *)
Theorem reversed_stored_dates_give_negative_amount
    settings request new_payment_id reply w text id b d' :
  dict_get (req_data request) "booking_id" = Some text ->
  UUIDField_to_python text = Some id ->
  Booking_objects_get (db w) id = Ok b ->
  Payment_insert (new_payment b new_payment_id) (db w) = Ok d' ->
  Booking.end_date b < Booking.start_date b ->
  0 < Listing.pricepernight (Booking.property b) ->
  exists p,
    payments (db (final (initiate_payment settings request new_payment_id reply w)))
    = p :: payments (db w)
    /\ Payment.booking p = id
    /\ Payment.status p = Payment.pending
    /\ Payment.amount p < 0.
Proof.
  intros Htext Hid Hb Hins Hdates Hprice.
  rewrite initiate_payment_run. unfold Booking_objects_get_request.
  rewrite Htext, Hid, Hb, Hins.
  apply Payment_insert_Ok in Hins. destruct Hins as (_ & _ & _ & ->).
  apply Booking_objects_get_Ok in Hb. destruct Hb as [_ Hbid].
  exists (new_payment b new_payment_id).
  unfold final. cbn [fst snd with_db db payments].
  split; [reflexivity|]. split; [exact Hbid|]. split; [reflexivity|].
  cbn [new_payment Payment.amount].
  unfold Booking.total_price, Booking.number_of_nights. nia.
Qed.

(** X25.  A request to one of the three views never rewrites or deletes a
    stored row, and never adds a Booking: in the world it leaves, and in
    every world it commits, the Booking table is the one it found, and the
    Payment table is the one it found or that table with one new row in
    front, pending, without a transaction id, holding the reference derived
    from its booking. *)
Theorem views_only_insert_payments o w w' :
  w' = fst (run_op o w) \/ In w' (snd (run_op o w)) ->
  bookings (db w') = bookings (db w)
  /\ (payments (db w') = payments (db w)
      \/ exists p, payments (db w') = p :: payments (db w)
                   /\ Payment.status p = Payment.pending
                   /\ Payment.transaction_id p = None
                   /\ Payment.booking_reference p = "BK-" ++ Payment.booking p
                   /\ exists b, In b (bookings (db w))
                                /\ Payment.booking p = Booking.booking_id b
                                /\ Payment.amount p = Booking.total_price b).
Proof.
  intros Hw.
  destruct (run_op_cases o w) as [E | (b & pid & d' & Hin & Hins & E)];
    rewrite E in Hw; cbn [fst snd In] in Hw.
  - destruct Hw as [-> | []]. split; [reflexivity | now left].
  - assert (w' = with_db w d') as -> by (destruct Hw as [-> | [<- | []]]; reflexivity).
    apply Payment_insert_Ok in Hins. destruct Hins as (_ & _ & _ & ->).
    split; [reflexivity|]. right. exists (new_payment b pid).
    do 4 (split; [reflexivity|]). exists b. now repeat split.
Qed.

End Views.

(** ** The availability rule in the words of the specification *)

Definition is_active (b : Booking.t) : bool :=
  match Booking.status b with
  | Booking.pending | Booking.confirmed => true
  | Booking.canceled => false
  end.

(** Half-open intervals: [existing.start_date < new.end_date] and
    [existing.end_date > new.start_date]. *)
Definition ranges_overlap (existing : Booking.t) (new_start new_end : date) : Prop :=
  Booking.start_date existing < new_end /\ Booking.end_date existing > new_start.

Definition spec_conflict (d : DB) (property_id : uuid) (new_start new_end : date) : Prop :=
  exists b, In b (bookings d)
            /\ Listing.property_id (Booking.property b) = property_id
            /\ is_active b = true
            /\ ranges_overlap b new_start new_end.


Definition conflict_reported {A} (r : result A) : Prop :=
  r = Raise (ValidationError msg_already_booked).

(** ** The two availability checks *)

Lemma qs_exists_iff {A} (qs : list A) : qs_exists qs = true <-> exists x, In x qs.
Proof.
  destruct qs as [|x r]; simpl; split.
  - discriminate.
  - intros [x []].
  - intros _. exists x. now left.
  - reflexivity.
Qed.

Lemma Booking_clean_bad_dates d self :
  Booking.start_date self >= Booking.end_date self ->
  Booking_clean d self = Raise (ValidationError msg_date_order).
Proof.
  intros H. unfold Booking_clean.
  destruct (Z.geb_spec (Booking.start_date self) (Booking.end_date self)) as [_ | Hlt];
    [reflexivity | lia].
Qed.

(** [Booking.clean] reports a conflict exactly when some row of the
    property, whatever its status and its key, overlaps the range. *)
Lemma Booking_clean_conflict_iff d self :
  Booking.start_date self < Booking.end_date self ->
  (conflict_reported (Booking_clean d self) <->
   exists b, In b (bookings d)
             /\ Listing.property_id (Booking.property b)
                = Listing.property_id (Booking.property self)
             /\ ranges_overlap b (Booking.start_date self) (Booking.end_date self)).
Proof.
  intros Hlt. unfold conflict_reported, Booking_clean, ranges_overlap.
  destruct (Z.geb_spec (Booking.start_date self) (Booking.end_date self)) as [Hge | _];
    [lia|].
  match goal with |- context [qs_exists ?q] => destruct (qs_exists q) eqn:E end.
  - split; [intros _ | reflexivity].
    apply qs_exists_iff in E. destruct E as [b Hb]. apply filter_In in Hb.
    destruct Hb as [Hin Hb]. rewrite !andb_true_iff in Hb. destruct Hb as [[Hp Hs] He].
    exists b. apply String.eqb_eq in Hp. apply Z.ltb_lt in Hs. apply Z.gtb_lt in He.
    repeat split; [assumption | assumption | assumption | lia].
  - split; [discriminate|]. intros [b (Hin & Hp & Hs & He)]. exfalso.
    assert (Hq : qs_exists
                   (filter (fun b => (Listing.property_id (Booking.property b)
                                        =? Listing.property_id (Booking.property self))%string
                                     && (Booking.start_date b <? Booking.end_date self)
                                     && (Booking.end_date b >? Booking.start_date self))
                           (bookings d)) = true).
    { apply qs_exists_iff. exists b. apply filter_In. split; [assumption|].
      rewrite !andb_true_iff. repeat split.
      - now apply String.eqb_eq.
      - now apply Z.ltb_lt.
      - apply Z.gtb_lt. lia. }
    congruence.
Qed.

Lemma validate_bad_dates d instance attrs s e :
  attrs_start_date attrs = Some s -> attrs_end_date attrs = Some e -> s >= e ->
  BookingDetailSerializer_validate d instance attrs = Raise (ValidationError msg_date_order).
Proof.
  intros Hs He H. unfold BookingDetailSerializer_validate. rewrite Hs, He.
  destruct (Z.geb_spec s e) as [_ | Hlt]; [reflexivity | lia].
Qed.

Lemma status_eqb_eq a b : Booking.status_eqb a b = true <-> a = b.
Proof. destruct a, b; simpl; split; congruence. Qed.

(** [BookingDetailSerializer.validate] reports a conflict exactly when a
    confirmed row of the property, other than the instance being updated,
    overlaps the range. *)
Lemma validate_conflict_iff d instance attrs s e pid :
  attrs_start_date attrs = Some s -> attrs_end_date attrs = Some e ->
  attrs_property_id attrs = Some pid -> s < e ->
  (conflict_reported (BookingDetailSerializer_validate d instance attrs) <->
   exists b, In b (bookings d)
             /\ Listing.property_id (Booking.property b) = pid
             /\ Booking.status b = Booking.confirmed
             /\ ranges_overlap b s e
             /\ forall inst, instance = Some inst ->
                  Booking.booking_id b <> Booking.booking_id inst).
Proof.
  intros Hs He Hp Hlt.
  unfold conflict_reported, BookingDetailSerializer_validate, ranges_overlap.
  rewrite Hs, He, Hp.
  destruct (Z.geb_spec s e) as [Hge | _]; [lia|].
  set (q := filter _ (bookings d)).
  assert (Hq : forall b, In b q <->
             In b (bookings d) /\ Listing.property_id (Booking.property b) = pid
             /\ Booking.status b = Booking.confirmed
             /\ Booking.start_date b < e /\ Booking.end_date b > s).
  { intros b. unfold q. rewrite filter_In, !andb_true_iff, String.eqb_eq,
      Z.ltb_lt, Z.gtb_lt, status_eqb_eq. intuition lia. }
  clearbody q.
  match goal with |- context [qs_exists ?q'] => destruct (qs_exists q') eqn:E end.
  - split; [intros _ | reflexivity].
    apply qs_exists_iff in E. destruct E as [b Hb].
    destruct instance as [inst|].
    + apply filter_In in Hb. destruct Hb as [Hin Hne]. apply Hq in Hin.
      exists b. repeat split; try tauto.
      intros i [= <-]. apply negb_true_iff in Hne. now apply String.eqb_neq.
    + apply Hq in Hb. exists b. repeat split; try tauto. discriminate.
  - split; [discriminate|]. intros [b (Hin & Hpb & Hst & Hov & Hinst)]. exfalso.
    assert (Hb : In b q) by (apply Hq; tauto).
    match type of E with qs_exists ?q' = false =>
      assert (Hq' : qs_exists q' = true) end; [|congruence].
    apply qs_exists_iff. exists b. destruct instance as [inst|]; [|assumption].
    apply filter_In. split; [assumption|]. apply negb_true_iff, String.eqb_neq.
    now apply Hinst.
Qed.

(** Neither check rejects a range that only touches an existing booking at
    its first or last day. *)
Lemma boundary_never_conflicts d self :
  Booking.start_date self < Booking.end_date self ->
  (forall b, In b (bookings d) ->
     Booking.end_date b <= Booking.start_date self
     \/ Booking.end_date self <= Booking.start_date b) ->
  Booking_clean d self = Ok tt
  /\ forall instance,
       BookingDetailSerializer_validate d instance
         {| attrs_start_date := Some (Booking.start_date self);
            attrs_end_date := Some (Booking.end_date self);
            attrs_property_id := Some (Listing.property_id (Booking.property self)) |}
       = Ok {| attrs_start_date := Some (Booking.start_date self);
               attrs_end_date := Some (Booking.end_date self);
               attrs_property_id := Some (Listing.property_id (Booking.property self)) |}.
Proof.
  intros Hlt Hfree. split.
  - pose proof (Booking_clean_conflict_iff d self Hlt) as Hiff.
    unfold conflict_reported in Hiff. unfold Booking_clean in *.
    destruct (Z.geb_spec (Booking.start_date self) (Booking.end_date self)); [lia|].
    match goal with |- context [qs_exists ?q] => destruct (qs_exists q) end;
      [|reflexivity].
    destruct Hiff as [Hiff _]. destruct (Hiff eq_refl) as [b (Hin & _ & Hs & He)].
    destruct (Hfree b Hin); lia.
  - intros instance.
    pose proof (validate_conflict_iff d instance
                  {| attrs_start_date := Some (Booking.start_date self);
                     attrs_end_date := Some (Booking.end_date self);
                     attrs_property_id :=
                       Some (Listing.property_id (Booking.property self)) |}
                  (Booking.start_date self) (Booking.end_date self)
                  (Listing.property_id (Booking.property self))
                  eq_refl eq_refl eq_refl Hlt) as Hiff.
    unfold conflict_reported in Hiff. unfold BookingDetailSerializer_validate in *.
    cbn [attrs_start_date attrs_end_date attrs_property_id] in *.
    destruct (Z.geb_spec (Booking.start_date self) (Booking.end_date self)); [lia|].
    match goal with |- context [qs_exists ?q] => destruct (qs_exists q) end;
      [|reflexivity].
    destruct Hiff as [Hiff _].
    destruct (Hiff eq_refl) as [b (Hin & _ & _ & [Hs He] & _)].
    destruct (Hfree b Hin); lia.
Qed.

(** On an update, [validate] leaves the row being updated out of the query. *)
Lemma validate_excludes_instance d inst attrs s e pid :
  attrs_start_date attrs = Some s -> attrs_end_date attrs = Some e ->
  attrs_property_id attrs = Some pid -> s < e ->
  (forall b, In b (bookings d) ->
     Listing.property_id (Booking.property b) = pid ->
     Booking.status b = Booking.confirmed -> ranges_overlap b s e ->
     Booking.booking_id b = Booking.booking_id inst) ->
  BookingDetailSerializer_validate d (Some inst) attrs = Ok attrs.
Proof.
  intros Hs He Hp Hlt Hown.
  pose proof (validate_conflict_iff d (Some inst) attrs s e pid Hs He Hp Hlt) as Hiff.
  unfold conflict_reported in Hiff. unfold BookingDetailSerializer_validate in *.
  rewrite Hs, He, Hp in *.
  destruct (Z.geb_spec s e); [lia|].
  match goal with |- context [qs_exists ?q] => destruct (qs_exists q) end;
    [|reflexivity].
  destruct Hiff as [Hiff _].
  destruct (Hiff eq_refl) as [b (Hin & Hpb & Hst & Hov & Hne)].
  exfalso. apply (Hne inst eq_refl). now apply Hown.
Qed.

(** ** The claims *)

(** C1 (availability rule).  The specification counts the pending and the
    confirmed bookings of the property as blocking.  Neither check of the
    source does: [BookingDetailSerializer.validate] looks at confirmed rows
    only, so a pending booking of the same nights lets the new range pass,
    and [Booking.clean] looks at every row, so a canceled booking makes it
    fail.  Both runs are on the villa, for the nights of 4 to 7 January,
    against one stored booking of the nights of 1 to 4 January. *)
Theorem C1_checks_against_active_rule :
  (spec_conflict (Sample.db_with [Sample.booking_x Booking.pending] [])
                 (Listing.property_id Sample.villa) Sample.jan4 Sample.jan8
   /\ BookingDetailSerializer_validate
        (Sample.db_with [Sample.booking_x Booking.pending] []) None Sample.attrs_y
      = Ok Sample.attrs_y)
  /\ (~ spec_conflict (Sample.db_with [Sample.booking_x Booking.canceled] [])
                      (Listing.property_id Sample.villa) Sample.jan4 Sample.jan8
      /\ conflict_reported
           (Booking_clean (Sample.db_with [Sample.booking_x Booking.canceled] [])
                          (Sample.booking_y Booking.pending))).
Proof.
  split; split.
  - exists (Sample.booking_x Booking.pending).
    split; [now left|]. split; [reflexivity|]. split; [reflexivity|].
    unfold ranges_overlap. simpl. split; reflexivity.
  - reflexivity.
  - intros [b (Hin & _ & Hact & _)]. simpl in Hin. destruct Hin as [<- | []].
    discriminate.
  - reflexivity.
Qed.

(** C7 (own row on update).  Booking X holds the nights of 1 to 4 January
    and is moved to the nights of 4 to 7 January, a range that overlaps
    nothing but X's stored row.  [Booking.clean] does not leave X's row out
    of its query and reports a conflict; [BookingDetailSerializer.validate],
    given X as its instance, accepts the same change. *)
Theorem C7_clean_counts_own_row :
  conflict_reported
    (Booking_clean (Sample.db_with [Sample.booking_x Booking.confirmed] [])
                   (Booking.set_dates (Sample.booking_x Booking.confirmed)
                                      Sample.jan4 Sample.jan8))
  /\ BookingDetailSerializer_validate
       (Sample.db_with [Sample.booking_x Booking.confirmed] [])
       (Some (Sample.booking_x Booking.confirmed)) Sample.attrs_y
     = Ok Sample.attrs_y.
Proof. split; reflexivity. Qed.

(** C4 (date order on creation).  A creation request whose start date
    (5 January) is after its end date (1 January) goes through
    [BookingViewSet.perform_create] and fails, but not on its dates: the
    INSERT is refused because the row has no property, the same integrity
    error that a request with well-ordered dates ends in.  No check of the
    dates runs on this path.  [Booking.clean] and
    [BookingDetailSerializer.validate] do reject these dates, with the
    ValidationError the specification asks for, but the view uses neither. *)
Theorem C4_create_endpoint_fails_without_date_check :
  perform_create (Sample.request [] [])
                 (Sample.create_request Sample.jan5 Sample.jan1)
                 Sample.booking_y_id initial_world
  = (Raise (IntegrityError "booking.property_id"), initial_world, [])
  /\ perform_create (Sample.request [] [])
                    (Sample.create_request Sample.jan1 Sample.jan5)
                    Sample.booking_y_id initial_world
     = (Raise (IntegrityError "booking.property_id"), initial_world, [])
  /\ Booking_clean empty_db
       (Booking.set_dates (Sample.booking_y Booking.pending) Sample.jan5 Sample.jan1)
     = Raise (ValidationError msg_date_order)
  /\ BookingDetailSerializer_validate empty_db None
       {| attrs_start_date := Some Sample.jan5; attrs_end_date := Some Sample.jan1;
          attrs_property_id := Some (Listing.property_id Sample.villa) |}
     = Raise (ValidationError msg_date_order).
Proof. repeat split. Qed.




(** ** The claims on [initiate_payment], on the sample data *)



(** C10, as it stands, fails: the exception that ends the call is the one of
    [settings.env], not the one of [payment.reference]. *)
Lemma C10_counterexample :
  outcome (initiate_payment Sample.to_python Sample.settings Sample.initiate_request
             Sample.payment_id_1 (Sample.reply_ok "success")
             (Sample.world_of (Sample.db_with [Sample.booking_x Booking.pending] [])))
  = Raise (AttributeError "Settings" "env")
  /\ outcome (initiate_payment Sample.to_python Sample.settings Sample.initiate_request
                Sample.payment_id_1 (Sample.reply_ok "success")
                (Sample.world_of (Sample.db_with [Sample.booking_x Booking.pending] [])))
     <> Raise (AttributeError "Payment" "reference").
Proof. split; [reflexivity | discriminate]. Qed.

Lemma C10_witness :
  outcome (initiate_payment Sample.to_python Sample.settings Sample.initiate_request
             Sample.payment_id_1 (Sample.reply_ok "success")
             (Sample.world_of (Sample.db_with [Sample.booking_x Booking.pending] [])))
  = Raise (AttributeError "Settings" "env")
  /\ payments (db (final (initiate_payment Sample.to_python Sample.settings
                            Sample.initiate_request Sample.payment_id_1
                            (Sample.reply_ok "success")
                            (Sample.world_of
                               (Sample.db_with [Sample.booking_x Booking.pending] [])))))
     = [Sample.payment_x Payment.pending].
Proof.
  destruct (C10_initiate_payment_stops_at_settings Sample.to_python
              Sample.settings Sample.initiate_request Sample.payment_id_1
              (Sample.reply_ok "success")
              (Sample.world_of (Sample.db_with [Sample.booking_x Booking.pending] []))
              Sample.booking_x_id Sample.booking_x_id (Sample.booking_x Booking.pending)
              (Sample.db_with [Sample.booking_x Booking.pending]
                              [Sample.payment_x Payment.pending])
              eq_refl eq_refl eq_refl eq_refl) as (Hout & _ & Hdb & _).
  split; [exact Hout|]. rewrite Hdb. reflexivity.
Defined.

(** The world in which the sample booking is stored and its payment has been
    initiated. *)
Definition world_with_payment : World :=
  fst (run_op Sample.to_python
         (OpInitiatePayment Sample.settings Sample.initiate_request
            Sample.payment_id_1 (Sample.reply_ok "success"))
         (with_db initial_world (Sample.db_with [Sample.booking_x Booking.pending] []))).

Lemma world_with_payment_reachable : reachable Sample.to_python world_with_payment.
Proof.
  apply reach_done. apply reach_orm; [apply reach_init | reflexivity].
Qed.

Lemma C8_witness :
  reachable Sample.to_python world_with_payment
  /\ payments (db world_with_payment) = [Sample.payment_x Payment.pending]
  /\ (List.length (payments_of (db world_with_payment) Sample.booking_x_id) <= 1)%nat
  /\ exists c, initiate_payment Sample.to_python Sample.settings Sample.initiate_request
                 Sample.payment_id_2 (Sample.reply_ok "success") world_with_payment
               = (Raise (IntegrityError c), world_with_payment, []).
Proof.
  assert (Hr : reachable Sample.to_python world_with_payment)
    by (apply reach_done; apply reach_orm; [apply reach_init | reflexivity]).
  destruct (C8_one_payment_per_booking Sample.to_python world_with_payment Hr)
    as [Hone Hrej].
  split; [exact Hr|]. split; [reflexivity|]. split; [apply Hone|].
  apply (Hrej Sample.settings Sample.initiate_request Sample.payment_id_2
              (Sample.reply_ok "success") Sample.booking_x_id Sample.booking_x_id
              (Sample.booking_x Booking.pending) (Sample.payment_x Payment.pending)).
  - reflexivity.
  - reflexivity.
  - reflexivity.
  - left. reflexivity.
  - reflexivity.
  - discriminate.
Defined.

(** ** The claims on [verify_payment] *)

(** C3 (verification that the gateway would confirm).  The sample booking
    and its Payment are stored, both pending, and the verification is asked
    for the Payment's reference.  Whatever the settings hold and whatever
    the gateway would answer, a confirmation included, the call ends in
    AttributeError on [settings.env] before a request is built: the Payment
    is not completed, the Booking is not confirmed, nothing is written. *)
Theorem C3_verify_stops_at_settings :
  Payment_objects_get
    (Sample.db_with [Sample.booking_x Booking.pending] [Sample.payment_x Payment.pending])
    ("BK-" ++ Sample.booking_x_id)
  = Ok (Sample.payment_x Payment.pending)
  /\ verify_payment Sample.settings Sample.verify_request_x (Sample.reply_ok "success")
       (Sample.world_of (Sample.db_with [Sample.booking_x Booking.pending]
                                        [Sample.payment_x Payment.pending]))
     = (Raise (AttributeError "Settings" "env"),
        Sample.world_of (Sample.db_with [Sample.booking_x Booking.pending]
                                        [Sample.payment_x Payment.pending]),
        [])
  /\ forall settings reply,
       verify_payment settings Sample.verify_request_x reply
         (Sample.world_of (Sample.db_with [Sample.booking_x Booking.pending]
                                          [Sample.payment_x Payment.pending]))
       = (Raise (AttributeError "Settings" "env"),
          Sample.world_of (Sample.db_with [Sample.booking_x Booking.pending]
                                          [Sample.payment_x Payment.pending]),
          []).
Proof.
  split; [reflexivity|]. split; [reflexivity|].
  intros settings reply. rewrite verify_payment_run. reflexivity.
Qed.




(** * Further properties, on the sample data and on [verify_payment] *)

Lemma no_job_and_no_initialize_request_witness :
  task_queue world_with_payment = []
  /\ (forall r, In r (outbox world_with_payment) ->
        gw_method r = "GET" /\ gw_json r = None
        /\ exists tx_ref, gw_url r = "https://api.chapa.co/v1/transaction/verify/" ++ tx_ref)
  /\ outbox world_with_payment = [].
Proof.
  exact (no_job_and_no_initialize_request Sample.to_python world_with_payment
           world_with_payment_reachable).
Defined.

Lemma initiate_then_verify_finds_payment_witness :
  Payment_objects_get (db world_with_payment) ("BK-" ++ Sample.booking_x_id)
  = Ok (Sample.payment_x Payment.pending)
  /\ verify_payment Sample.settings Sample.verify_request_x (Sample.reply_ok "success")
       world_with_payment
     = (Raise (AttributeError "Settings" "env"), world_with_payment, []).
Proof.
  exact (initiate_then_verify_finds_payment Sample.to_python
           Sample.settings Sample.initiate_request Sample.payment_id_1
           (Sample.reply_ok "success")
           (with_db initial_world (Sample.db_with [Sample.booking_x Booking.pending] []))
           Sample.booking_x_id Sample.booking_x_id (Sample.booking_x Booking.pending)
           (Sample.db_with [Sample.booking_x Booking.pending]
                           [Sample.payment_x Payment.pending])
           Sample.settings Sample.verify_request_x (Sample.reply_ok "success")
           eq_refl eq_refl eq_refl eq_refl eq_refl).
Defined.

(** The sample booking with its dates the wrong way round: from 5 January
    back to 1 January. *)
Definition booking_reversed : Booking.t :=
  Booking.set_dates (Sample.booking_x Booking.pending) Sample.jan5 Sample.jan1.

Lemma reversed_stored_dates_give_negative_amount_witness :
  exists p,
    payments (db (final (initiate_payment Sample.to_python Sample.settings
                           Sample.initiate_request Sample.payment_id_1
                           (Sample.reply_ok "success")
                           (Sample.world_of (Sample.db_with [booking_reversed] [])))))
    = p :: []
    /\ Payment.booking p = Sample.booking_x_id
    /\ Payment.status p = Payment.pending
    /\ Payment.amount p < 0.
Proof.
  exact (reversed_stored_dates_give_negative_amount Sample.to_python
           Sample.settings Sample.initiate_request Sample.payment_id_1
           (Sample.reply_ok "success")
           (Sample.world_of (Sample.db_with [booking_reversed] []))
           Sample.booking_x_id Sample.booking_x_id booking_reversed
           (Sample.db_with [booking_reversed]
                           [new_payment booking_reversed Sample.payment_id_1])
           eq_refl eq_refl eq_refl eq_refl eq_refl eq_refl).
Defined.

Lemma views_only_insert_payments_witness :
  bookings (db world_with_payment) = [Sample.booking_x Booking.pending]
  /\ (payments (db world_with_payment) = []
      \/ exists p, payments (db world_with_payment) = [p]
                   /\ Payment.status p = Payment.pending
                   /\ Payment.transaction_id p = None
                   /\ Payment.booking_reference p = "BK-" ++ Payment.booking p
                   /\ exists b, In b [Sample.booking_x Booking.pending]
                                /\ Payment.booking p = Booking.booking_id b
                                /\ Payment.amount p = Booking.total_price b).
Proof.
  exact (views_only_insert_payments Sample.to_python
           (OpInitiatePayment Sample.settings Sample.initiate_request
              Sample.payment_id_1 (Sample.reply_ok "success"))
           (with_db initial_world (Sample.db_with [Sample.booking_x Booking.pending] []))
           world_with_payment (or_introl eq_refl)).
Defined.

(** X1.  [verify_payment] writes nothing and sends nothing, whatever it is
    asked and whatever the gateway would answer: the world it leaves is the
    world it found and it commits nothing.  It answers 400 without a
    reference, 404 for a reference that no Payment carries, and ends in
    AttributeError on [settings.env] for the reference of a stored
    Payment. *)
Theorem verify_payment_is_read_only settings request reply w :
  final (verify_payment settings request reply w) = w
  /\ commits (verify_payment settings request reply w) = []
  /\ outcome (verify_payment settings request reply w)
     = match dict_get (req_query_params request) "tx_ref" with
       | None | Some "" =>
           Ok (mkResponse [("error", VStr "Transaction reference is required")]
                          HTTP_400_BAD_REQUEST)
       | Some tx_ref =>
           if existsb (fun p => Payment.booking_reference p =? tx_ref)%string
                      (payments (db w))
           then Raise (AttributeError "Settings" "env")
           else Ok (mkResponse [("error", VStr "Payment not found")] HTTP_404_NOT_FOUND)
       end.
Proof.
  rewrite verify_payment_run.
  destruct (dict_get (req_query_params request) "tx_ref") as [[|a s]|];
    [now repeat split | | now repeat split].
  unfold Payment_objects_get.
  destruct (find _ (payments (db w))) as [p|] eqn:E.
  - apply find_some in E.
    assert (H : existsb (fun p => Payment.booking_reference p =? String a s)%string
                        (payments (db w)) = true).
    { apply existsb_exists. now exists p. }
    rewrite H. now repeat split.
  - assert (H : existsb (fun p => Payment.booking_reference p =? String a s)%string
                        (payments (db w)) = false).
    { apply existsb_false_forall. intros x Hx. exact (find_none _ _ E x Hx). }
    rewrite H. now repeat split.
Qed.

(** X11.  Without a usable reference [verify_payment] does not contact the
    gateway: when [tx_ref] is absent or empty it answers 400, when no Payment
    carries it it answers 404, and in both cases the world, its outbox
    included, is left as it was. *)
Theorem verify_payment_without_payment settings request reply w :
  match dict_get (req_query_params request) "tx_ref" with
  | None => True
  | Some tx_ref =>
      tx_ref = "" \/ forall p, In p (payments (db w)) ->
                               Payment.booking_reference p <> tx_ref
  end ->
  final (verify_payment settings request reply w) = w
  /\ commits (verify_payment settings request reply w) = []
  /\ outcome (verify_payment settings request reply w)
     = match dict_get (req_query_params request) "tx_ref" with
       | None | Some "" =>
           Ok (mkResponse [("error", VStr "Transaction reference is required")]
                          HTTP_400_BAD_REQUEST)
       | Some _ =>
           Ok (mkResponse [("error", VStr "Payment not found")] HTTP_404_NOT_FOUND)
       end.
Proof.
  intros H. unfold verify_payment.
  destruct (dict_get (req_query_params request) "tx_ref") as [[|a s]|];
    [now repeat split | | now repeat split].
  destruct H as [H | H]; [discriminate|].
  unfold bind, get_db, Payment_objects_get.
  destruct (find _ (payments (db w))) as [p|] eqn:E; [|now repeat split].
  apply find_some in E. destruct E as [Hin Heq]. apply String.eqb_eq in Heq.
  now destruct (H p Hin).
Qed.

Lemma verify_payment_without_payment_witness :
  final (verify_payment Sample.settings Sample.verify_request_x
           (Sample.reply_ok "success")
           (Sample.world_of (Sample.db_with [Sample.booking_x Booking.pending] [])))
  = Sample.world_of (Sample.db_with [Sample.booking_x Booking.pending] [])
  /\ commits (verify_payment Sample.settings Sample.verify_request_x
                (Sample.reply_ok "success")
                (Sample.world_of (Sample.db_with [Sample.booking_x Booking.pending] [])))
     = []
  /\ outcome (verify_payment Sample.settings Sample.verify_request_x
                (Sample.reply_ok "success")
                (Sample.world_of (Sample.db_with [Sample.booking_x Booking.pending] [])))
     = Ok (mkResponse [("error", VStr "Payment not found")] HTTP_404_NOT_FOUND).
Proof.
  exact (verify_payment_without_payment Sample.settings Sample.verify_request_x
           (Sample.reply_ok "success")
           (Sample.world_of (Sample.db_with [Sample.booking_x Booking.pending] []))
           (or_intror (fun p (H : In p []) => match H with end))).
Defined.

(** ** What the two availability checks guarantee *)

(** Two rows clash when they are different bookings of one property whose
    nights intersect; [apart keep d] holds when no two rows of [d] selected
    by [keep] clash. *)
Definition rows_clash (a b : Booking.t) : bool :=
  negb (Booking.booking_id a =? Booking.booking_id b)%string
  && (Listing.property_id (Booking.property a)
        =? Listing.property_id (Booking.property b))%string
  && (Booking.start_date a <? Booking.end_date b)
  && (Booking.start_date b <? Booking.end_date a).

Definition apart (keep : Booking.t -> bool) (d : DB) : bool :=
  forallb (fun a => forallb (fun b => negb (keep a && keep b && rows_clash a b))
                            (bookings d))
          (bookings d).

Definition is_confirmed (b : Booking.t) : bool :=
  Booking.status_eqb (Booking.status b) Booking.confirmed.

Lemma apart_iff keep d :
  apart keep d = true <->
  forall a b, In a (bookings d) -> In b (bookings d) ->
    keep a = true -> keep b = true -> rows_clash a b = false.
Proof.
  unfold apart. rewrite forallb_forall. split.
  - intros H a b Ha Hb Hka Hkb. specialize (H a Ha). rewrite forallb_forall in H.
    specialize (H b Hb). rewrite Hka, Hkb in H. simpl in H.
    now apply negb_true_iff in H.
  - intros H a Ha. apply forallb_forall. intros b Hb. apply negb_true_iff.
    destruct (keep a) eqn:Hka; [|reflexivity].
    destruct (keep b) eqn:Hkb; [|reflexivity]. simpl. now apply H.
Qed.

Lemma rows_clash_sym a b : rows_clash a b = rows_clash b a.
Proof.
  unfold rows_clash.
  rewrite (String.eqb_sym (Booking.booking_id a)),
          (String.eqb_sym (Listing.property_id (Booking.property a))).
  destruct (negb _), (_ =? _)%string,
           (Booking.start_date a <? Booking.end_date b),
           (Booking.start_date b <? Booking.end_date a); reflexivity.
Qed.

Lemma apart_insert keep d b d' :
  apart keep d = true ->
  Booking_insert b d = Ok d' ->
  (keep b = true ->
   forall y, In y (bookings d) -> keep y = true -> rows_clash y b = false) ->
  apart keep d' = true.
Proof.
  intros Hd Hins Hnew. apply Booking_insert_Ok in Hins. destruct Hins as [_ ->].
  rewrite apart_iff in *. simpl. intros x y [<- | Hx] [<- | Hy] Hkx Hky.
  - unfold rows_clash. now rewrite String.eqb_refl.
  - rewrite rows_clash_sym. now apply Hnew.
  - now apply Hnew.
  - now apply Hd.
Qed.

Lemma Booking_clean_Ok d self :
  Booking_clean d self = Ok tt ->
  Booking.start_date self < Booking.end_date self
  /\ forall y, In y (bookings d) ->
       Listing.property_id (Booking.property y)
       = Listing.property_id (Booking.property self) ->
       ~ ranges_overlap y (Booking.start_date self) (Booking.end_date self).
Proof.
  intros H.
  assert (Hlt : Booking.start_date self < Booking.end_date self).
  { unfold Booking_clean in H.
    destruct (Z.geb_spec (Booking.start_date self) (Booking.end_date self));
      [discriminate | assumption]. }
  split; [exact Hlt|]. intros y Hy Hp Hov.
  pose proof (Booking_clean_conflict_iff d self Hlt) as [_ Hiff].
  unfold conflict_reported in Hiff. rewrite H in Hiff.
  discriminate Hiff. now exists y.
Qed.

Lemma validate_Ok d instance attrs s e pid r :
  attrs_start_date attrs = Some s -> attrs_end_date attrs = Some e ->
  attrs_property_id attrs = Some pid ->
  BookingDetailSerializer_validate d instance attrs = Ok r ->
  s < e
  /\ forall y, In y (bookings d) ->
       Listing.property_id (Booking.property y) = pid ->
       Booking.status y = Booking.confirmed ->
       (forall inst, instance = Some inst ->
          Booking.booking_id y <> Booking.booking_id inst) ->
       ~ ranges_overlap y s e.
Proof.
  intros Hs He Hp H.
  assert (Hlt : s < e).
  { unfold BookingDetailSerializer_validate in H. rewrite Hs, He in H.
    destruct (Z.geb_spec s e); [discriminate | assumption]. }
  split; [exact Hlt|]. intros y Hy Hpy Hst Hinst Hov.
  pose proof (validate_conflict_iff d instance attrs s e pid Hs He Hp Hlt) as [_ Hiff].
  unfold conflict_reported in Hiff. rewrite H in Hiff.
  discriminate Hiff. exists y. tauto.
Qed.

Lemma rows_clash_overlap y b :
  rows_clash y b = true ->
  Listing.property_id (Booking.property y) = Listing.property_id (Booking.property b)
  /\ ranges_overlap y (Booking.start_date b) (Booking.end_date b).
Proof.
  unfold rows_clash, ranges_overlap. rewrite !andb_true_iff.
  intros [[[_ Hp] Hs] He]. apply String.eqb_eq in Hp.
  apply Z.ltb_lt in Hs. apply Z.ltb_lt in He. split; [exact Hp | lia].
Qed.

(** X15.  [Booking.clean] followed by the insert keeps the bookings of a
    property apart: if no two stored rows of one property share a night and
    [clean] accepts a new booking, then after that booking is inserted still
    no two rows of one property share a night, whatever their statuses. *)
Theorem clean_then_insert_keeps_rows_apart d b d' :
  apart (fun _ => true) d = true ->
  Booking_clean d b = Ok tt ->
  Booking_insert b d = Ok d' ->
  apart (fun _ => true) d' = true.
Proof.
  intros Hd Hclean Hins. apply (apart_insert _ d b d' Hd Hins).
  intros _ y Hy _. destruct (rows_clash y b) eqn:E; [|reflexivity]. exfalso.
  apply rows_clash_overlap in E. destruct E as [Hp Hov].
  apply Booking_clean_Ok in Hclean. destruct Hclean as [_ Hfree].
  exact (Hfree y Hy Hp Hov).
Qed.

Lemma clean_then_insert_keeps_rows_apart_witness :
  apart (fun _ => true)
        (Sample.db_with
           [Booking.set_dates (Sample.booking_y Booking.pending) Sample.jan5 Sample.jan8;
            Sample.booking_x Booking.pending] [])
  = true.
Proof.
  exact (clean_then_insert_keeps_rows_apart
           (Sample.db_with [Sample.booking_x Booking.pending] [])
           (Booking.set_dates (Sample.booking_y Booking.pending) Sample.jan5 Sample.jan8)
           _ eq_refl eq_refl eq_refl).
Defined.

(** X16.  [BookingDetailSerializer.validate] on a creation followed by the
    insert keeps the confirmed bookings of a property apart: if no two
    confirmed rows of one property share a night and [validate] accepts the
    dates and the property of a new booking, they still do not after the
    booking is inserted. *)
Theorem validate_then_insert_keeps_confirmed_apart d b d' attrs r :
  apart is_confirmed d = true ->
  attrs_start_date attrs = Some (Booking.start_date b) ->
  attrs_end_date attrs = Some (Booking.end_date b) ->
  attrs_property_id attrs = Some (Listing.property_id (Booking.property b)) ->
  BookingDetailSerializer_validate d None attrs = Ok r ->
  Booking_insert b d = Ok d' ->
  apart is_confirmed d' = true.
Proof.
  intros Hd Hs He Hp Hval Hins. apply (apart_insert _ d b d' Hd Hins).
  intros _ y Hy Hky. destruct (rows_clash y b) eqn:E; [|reflexivity]. exfalso.
  apply rows_clash_overlap in E. destruct E as [Hpy Hov].
  destruct (validate_Ok d None attrs _ _ _ r Hs He Hp Hval) as [_ Hfree].
  apply (Hfree y Hy Hpy); [now apply status_eqb_eq | discriminate | exact Hov].
Qed.

Lemma validate_then_insert_keeps_confirmed_apart_witness :
  apart is_confirmed
        (Sample.db_with [Sample.booking_y Booking.confirmed;
                         Sample.booking_x Booking.pending] [])
  = true.
Proof.
  exact (validate_then_insert_keeps_confirmed_apart
           (Sample.db_with [Sample.booking_x Booking.pending] [])
           (Sample.booking_y Booking.confirmed) _ Sample.attrs_y Sample.attrs_y
           eq_refl eq_refl eq_refl eq_refl eq_refl eq_refl).
Defined.

(** X17.  [Booking.clean] is the stricter of the two checks: dates and a
    property that [clean] accepts are accepted by
    [BookingDetailSerializer.validate] too, for a creation and for the update
    of any instance. *)
Theorem clean_accepts_implies_validate_accepts d self instance :
  Booking_clean d self = Ok tt ->
  BookingDetailSerializer_validate d instance
    {| attrs_start_date := Some (Booking.start_date self);
       attrs_end_date := Some (Booking.end_date self);
       attrs_property_id := Some (Listing.property_id (Booking.property self)) |}
  = Ok {| attrs_start_date := Some (Booking.start_date self);
          attrs_end_date := Some (Booking.end_date self);
          attrs_property_id := Some (Listing.property_id (Booking.property self)) |}.
Proof.
  intros Hclean. apply Booking_clean_Ok in Hclean. destruct Hclean as [Hlt Hfree].
  set (attrs := {| attrs_start_date := Some (Booking.start_date self);
                   attrs_end_date := Some (Booking.end_date self);
                   attrs_property_id :=
                     Some (Listing.property_id (Booking.property self)) |}).
  pose proof (validate_conflict_iff d instance attrs _ _ _ eq_refl eq_refl eq_refl Hlt)
    as [Hiff _].
  unfold conflict_reported in Hiff. unfold BookingDetailSerializer_validate in *.
  cbn [attrs attrs_start_date attrs_end_date attrs_property_id] in *.
  destruct (Z.geb_spec (Booking.start_date self) (Booking.end_date self)); [lia|].
  match goal with |- context [qs_exists ?q] => destruct (qs_exists q) end;
    [|reflexivity].
  destruct (Hiff eq_refl) as [y (Hy & Hp & _ & Hov & _)].
  destruct (Hfree y Hy Hp Hov).
Qed.

Lemma clean_accepts_implies_validate_accepts_witness :
  BookingDetailSerializer_validate
    (Sample.db_with [Sample.booking_x Booking.confirmed] []) None
    {| attrs_start_date := Some Sample.jan5; attrs_end_date := Some Sample.jan8;
       attrs_property_id := Some (Listing.property_id Sample.villa) |}
  = Ok {| attrs_start_date := Some Sample.jan5; attrs_end_date := Some Sample.jan8;
          attrs_property_id := Some (Listing.property_id Sample.villa) |}.
Proof.
  exact (clean_accepts_implies_validate_accepts
           (Sample.db_with [Sample.booking_x Booking.confirmed] [])
           (Booking.set_dates (Sample.booking_y Booking.pending) Sample.jan5 Sample.jan8)
           None eq_refl).
Defined.

(** X18.  The outcomes of [BookingDetailSerializer.validate]: it returns the
    attributes it was given or raises one of its two errors; the date error
    is raised exactly when both dates are present and the start is not
    before the end, so a partial update that carries one date only passes
    without any check, and without a property no conflict is ever
    reported. *)
Theorem validate_outcomes d instance attrs :
  (BookingDetailSerializer_validate d instance attrs = Ok attrs
   \/ BookingDetailSerializer_validate d instance attrs
      = Raise (ValidationError msg_date_order)
   \/ BookingDetailSerializer_validate d instance attrs
      = Raise (ValidationError msg_already_booked))
  /\ (BookingDetailSerializer_validate d instance attrs
      = Raise (ValidationError msg_date_order)
      <-> exists s e, attrs_start_date attrs = Some s
                      /\ attrs_end_date attrs = Some e /\ s >= e)
  /\ (attrs_start_date attrs = None \/ attrs_end_date attrs = None ->
      BookingDetailSerializer_validate d instance attrs = Ok attrs)
  /\ (attrs_property_id attrs = None ->
      BookingDetailSerializer_validate d instance attrs
      <> Raise (ValidationError msg_already_booked)).
Proof.
  unfold BookingDetailSerializer_validate.
  destruct (attrs_start_date attrs) as [s|], (attrs_end_date attrs) as [e|].
  2-4: (split; [now left|]; split;
        [split; [discriminate | intros (? & ? & ? & ? & ?); discriminate]|];
        split; [reflexivity | discriminate]).
  destruct (Z.geb_spec s e) as [Hge | Hlt].
  - split; [right; now left|]. split.
    + split; [intros _; exists s, e; repeat split; lia | reflexivity].
    + split; [intros [? | ?]; discriminate | discriminate].
  - assert (Hno : ~ exists s0 e0, Some s = Some s0 /\ Some e = Some e0 /\ s0 >= e0).
    { intros (s0 & e0 & [= <-] & [= <-] & H). lia. }
    destruct (attrs_property_id attrs) as [pid|].
    + match goal with |- context [qs_exists ?q] => destruct (qs_exists q) end.
      * split; [right; now right|]. split; [split; [discriminate | tauto]|].
        split; [intros [? | ?]; discriminate | discriminate].
      * split; [now left|]. split; [split; [discriminate | tauto]|].
        split; [intros [? | ?]; discriminate | discriminate].
    + split; [now left|]. split; [split; [discriminate | tauto]|].
      split; [intros [? | ?]; discriminate | discriminate].
Qed.

Lemma validate_outcomes_witness :
  BookingDetailSerializer_validate
    (Sample.db_with [Sample.booking_x Booking.confirmed] [])
    (Some (Sample.booking_y Booking.pending))
    {| attrs_start_date := None; attrs_end_date := Some Sample.jan4;
       attrs_property_id := Some (Listing.property_id Sample.villa) |}
  = Ok {| attrs_start_date := None; attrs_end_date := Some Sample.jan4;
          attrs_property_id := Some (Listing.property_id Sample.villa) |}.
Proof.
  exact (proj1 (proj2 (proj2 (validate_outcomes
                                (Sample.db_with [Sample.booking_x Booking.confirmed] [])
                                (Some (Sample.booking_y Booking.pending))
                                {| attrs_start_date := None;
                                   attrs_end_date := Some Sample.jan4;
                                   attrs_property_id :=
                                     Some (Listing.property_id Sample.villa) |})))
               (or_introl eq_refl)).
Defined.

(** X19.  A booking that [Booking.clean] accepts spans at least one night,
    and when the nightly price of its listing is at least one hundredth (the
    minimum the price validator allows) its total price is at least one
    nightly price. *)
Theorem clean_booking_has_a_night d self :
  Booking_clean d self = Ok tt ->
  1 <= Listing.pricepernight (Booking.property self) ->
  1 <= Booking.number_of_nights self
  /\ Listing.pricepernight (Booking.property self) <= Booking.total_price self.
Proof.
  intros Hclean Hprice. apply Booking_clean_Ok in Hclean. destruct Hclean as [Hlt _].
  unfold Booking.total_price, Booking.number_of_nights. split; nia.
Qed.

Lemma clean_booking_has_a_night_witness :
  1 <= Booking.number_of_nights (Sample.booking_x Booking.pending)
  /\ 250000 <= Booking.total_price (Sample.booking_x Booking.pending).
Proof.
  exact (clean_booking_has_a_night empty_db (Sample.booking_x Booking.pending)
           eq_refl ltac:(discriminate)).
Defined.

(** ** serializers.py: nights booked, hosts, e-mail addresses *)

(** PropertyDetailSerializer.get_total_nights_booked: [sum] over the
    confirmed bookings of the listing. *)
Definition get_total_nights_booked (d : DB) (obj : Listing.t) : Z :=
  let bookings :=
    filter (fun b => (Listing.property_id (Booking.property b)
                        =? Listing.property_id obj)%string
                     && Booking.status_eqb (Booking.status b) Booking.confirmed)
           (bookings d) in
  fold_left Z.add (map Booking.number_of_nights bookings) 0.

(** What one row adds to the nights booked of a listing. *)
Definition nights_counted (obj : Listing.t) (b : Booking.t) : Z :=
  if (Listing.property_id (Booking.property b) =? Listing.property_id obj)%string
     && Booking.status_eqb (Booking.status b) Booking.confirmed
  then Booking.number_of_nights b
  else 0.

Lemma fold_left_add_shift l a : fold_left Z.add l a = a + fold_left Z.add l 0.
Proof.
  revert a. induction l as [|x r IH]; intros a; simpl; [lia|].
  rewrite (IH (a + x)), (IH x). lia.
Qed.

Lemma get_total_nights_booked_cons bs ps b obj :
  get_total_nights_booked {| bookings := b :: bs; payments := ps |} obj
  = nights_counted obj b
    + get_total_nights_booked {| bookings := bs; payments := ps |} obj.
Proof.
  unfold get_total_nights_booked, nights_counted. cbn [bookings filter].
  destruct ((Listing.property_id (Booking.property b) =? Listing.property_id obj)%string
            && Booking.status_eqb (Booking.status b) Booking.confirmed).
  - cbn [map fold_left]. rewrite fold_left_add_shift. lia.
  - lia.
Qed.

Lemma get_total_nights_booked_confirm bs ps b obj :
  NoDup (map Booking.booking_id bs) -> In b bs ->
  get_total_nights_booked
    {| bookings := replace_booking (Booking.set_status b Booking.confirmed) bs;
       payments := ps |} obj
  = get_total_nights_booked {| bookings := bs; payments := ps |} obj
    + nights_counted obj (Booking.set_status b Booking.confirmed)
    - nights_counted obj b.
Proof.
  induction bs as [|x r IH]; intros Hnd Hin; [destruct Hin|].
  inversion Hnd as [|? ? Hx Hr]; subst.
  unfold replace_booking. cbn [map]. fold (replace_booking (Booking.set_status b Booking.confirmed) r).
  change (Booking.booking_id (Booking.set_status b Booking.confirmed))
    with (Booking.booking_id b).
  rewrite !get_total_nights_booked_cons.
  destruct (Booking.booking_id x =? Booking.booking_id b)%string eqn:E.
  - apply String.eqb_eq in E.
    assert (x = b).
    { apply (NoDup_map_inj Booking.booking_id (x :: r) x b Hnd);
        [now left | exact Hin | exact E]. }
    subst x.
    assert (Hid : replace_booking (Booking.set_status b Booking.confirmed) r = r).
    { unfold replace_booking. rewrite <- (map_id r) at 2. apply map_ext_in.
      intros y Hy. simpl.
      destruct (Booking.booking_id y =? Booking.booking_id b)%string eqn:F;
        [|reflexivity].
      apply String.eqb_eq in F. exfalso. apply Hx. rewrite <- F. now apply in_map. }
    rewrite Hid. lia.
  - destruct Hin as [-> | Hin]; [now rewrite String.eqb_refl in E|].
    rewrite (IH Hr Hin). lia.
Qed.

(** X20.  Confirming a stored booking adds its nights to the nights booked
    of its listing, once: after [save()] of the booking with its status set
    to confirmed, the total of a listing has grown by the booking's nights
    when the booking is one of the listing's and was not confirmed before,
    and is unchanged otherwise. *)
Theorem confirming_booking_adds_nights_booked d b obj :
  distinct (map Booking.booking_id (bookings d)) = true ->
  In b (bookings d) ->
  exists d',
    Booking_save (Booking.set_status b Booking.confirmed) d = Ok d'
    /\ get_total_nights_booked d' obj
       = get_total_nights_booked d obj
         + if (Listing.property_id (Booking.property b) =? Listing.property_id obj)%string
              && negb (Booking.status_eqb (Booking.status b) Booking.confirmed)
           then Booking.number_of_nights b
           else 0.
Proof.
  intros Hd Hin. apply distinct_NoDup in Hd.
  eexists. split; [apply Booking_save_status; exact Hin|].
  destruct d as [bs ps]. cbn [bookings payments] in *.
  rewrite (get_total_nights_booked_confirm bs ps b obj Hd Hin).
  unfold nights_counted.
  change (Booking.property (Booking.set_status b Booking.confirmed))
    with (Booking.property b).
  change (Booking.status (Booking.set_status b Booking.confirmed))
    with Booking.confirmed.
  change (Booking.number_of_nights (Booking.set_status b Booking.confirmed))
    with (Booking.number_of_nights b).
  destruct (Listing.property_id (Booking.property b) =? Listing.property_id obj)%string,
           (Booking.status_eqb (Booking.status b) Booking.confirmed);
    cbn [andb negb Booking.status_eqb]; lia.
Qed.

Lemma confirming_booking_adds_nights_booked_witness :
  exists d',
    Booking_save (Booking.set_status (Sample.booking_x Booking.pending) Booking.confirmed)
                 (Sample.db_with [Sample.booking_x Booking.pending] [])
    = Ok d'
    /\ get_total_nights_booked d' Sample.villa = 0 + 4.
Proof.
  exact (confirming_booking_adds_nights_booked
           (Sample.db_with [Sample.booking_x Booking.pending] [])
           (Sample.booking_x Booking.pending) Sample.villa
           eq_refl (or_introl eq_refl)).
Defined.

(** The user table, for the two serializer checks that read it. *)
Definition User_objects_get (users : list User.t) (user_id : uuid) : result User.t :=
  match find (fun u => User.user_id u =? user_id)%string users with
  | Some u => Ok u
  | None => Raise (DoesNotExist "User")
  end.

Definition msg_not_host : string := "User must be a host or admin to create properties.".
Definition msg_host_not_found : string := "Host not found.".
Definition msg_email_in_use : string := "Email is already in use.".

(** PropertyDetailSerializer.validate_host_id: the ValidationError raised
    inside the [try] is not a [User.DoesNotExist] and passes the [except]. *)
Definition PropertyDetailSerializer_validate_host_id
    (users : list User.t) (value : uuid) : result uuid :=
  match User_objects_get users value with
  | Ok host =>
      if negb (existsb (String.eqb (User.role host)) ["host"; "admin"])
      then Raise (ValidationError msg_not_host)
      else Ok value
  | Raise (DoesNotExist _) => Raise (ValidationError msg_host_not_found)
  | Raise e => Raise e
  end.

(** UserSerializer.validate_email; [filter(email=value)] is an exact match
    of the stored text. *)
Definition UserSerializer_validate_email
    (users : list User.t) (value : string) : result string :=
  if qs_exists (filter (fun u => User.email u =? value)%string users)
  then Raise (ValidationError msg_email_in_use)
  else Ok value.

Definition may_host (u : User.t) : Prop :=
  User.role u = "host" \/ User.role u = "admin".

Lemma may_host_iff u :
  existsb (String.eqb (User.role u)) ["host"; "admin"] = true <-> may_host u.
Proof.
  unfold may_host. simpl. rewrite !orb_true_iff, !String.eqb_eq.
  intuition discriminate.
Qed.

(** X21.  [validate_host_id] accepts a value exactly when the user stored
    under it is a host or an admin, and then returns the value; it reports
    "Host not found." exactly when no user is stored under it, and the role
    error for a stored user of any other role. *)
Theorem validate_host_id_outcomes users value :
  distinct (map User.user_id users) = true ->
  (PropertyDetailSerializer_validate_host_id users value = Ok value
   <-> exists u, In u users /\ User.user_id u = value /\ may_host u)
  /\ (PropertyDetailSerializer_validate_host_id users value
      = Raise (ValidationError msg_host_not_found)
      <-> forall u, In u users -> User.user_id u <> value)
  /\ (PropertyDetailSerializer_validate_host_id users value
      = Raise (ValidationError msg_not_host)
      <-> exists u, In u users /\ User.user_id u = value /\ ~ may_host u).
Proof.
  intros Hd. apply distinct_NoDup in Hd.
  unfold PropertyDetailSerializer_validate_host_id, User_objects_get.
  destruct (find _ users) as [h|] eqn:E.
  - apply find_some in E. destruct E as [Hin Hid]. apply String.eqb_eq in Hid.
    assert (Huniq : forall u, In u users -> User.user_id u = value -> u = h).
    { intros u Hu Hv. apply (NoDup_map_inj User.user_id users u h Hd Hu Hin).
      congruence. }
    destruct (existsb (String.eqb (User.role h)) ["host"; "admin"]) eqn:R;
      cbn [negb].
    + apply may_host_iff in R. split; [|split].
      * split; [intros _; now exists h | reflexivity].
      * split; [discriminate | intros H; now destruct (H h Hin)].
      * split; [discriminate|]. intros (u & Hu & Hv & Hn).
        rewrite (Huniq u Hu Hv) in Hn. contradiction.
    + assert (Hn : ~ may_host h) by (rewrite <- may_host_iff; congruence).
      split; [|split].
      * split; [discriminate|]. intros (u & Hu & Hv & Hm).
        rewrite (Huniq u Hu Hv) in Hm. contradiction.
      * split; [discriminate | intros H; now destruct (H h Hin)].
      * split; [intros _; now exists h | reflexivity].
  - split; [|split].
    + split; [discriminate|]. intros (u & Hu & Hv & _).
      apply (find_none _ _ E) in Hu. apply String.eqb_neq in Hu. contradiction.
    + split; [|reflexivity]. intros _ u Hu.
      apply (find_none _ _ E) in Hu. now apply String.eqb_neq in Hu.
    + split; [discriminate|]. intros (u & Hu & Hv & _).
      apply (find_none _ _ E) in Hu. apply String.eqb_neq in Hu. contradiction.
Qed.

Lemma validate_host_id_outcomes_witness :
  PropertyDetailSerializer_validate_host_id [Sample.host; Sample.guest]
    (User.user_id Sample.guest)
  = Raise (ValidationError msg_not_host).
Proof.
  apply (proj2 (proj2 (validate_host_id_outcomes [Sample.host; Sample.guest]
                         (User.user_id Sample.guest) eq_refl))).
  exists Sample.guest. split; [right; now left|]. split; [reflexivity|].
  intros [H | H]; discriminate H.
Defined.

(** X22.  [validate_email] keeps the stored addresses pairwise distinct: an
    address it accepts is the address of no stored user, so a user added
    with it leaves the addresses distinct.  It has no exception for the user
    being updated: the address of a stored user is always refused, also when
    that user keeps it. *)
Theorem validate_email_keeps_addresses_distinct users u :
  distinct (map User.email users) = true ->
  (In u users ->
   UserSerializer_validate_email users (User.email u)
   = Raise (ValidationError msg_email_in_use))
  /\ (UserSerializer_validate_email users (User.email u) = Ok (User.email u) ->
      distinct (map User.email (u :: users)) = true)
  /\ (UserSerializer_validate_email users (User.email u) = Ok (User.email u)
      \/ UserSerializer_validate_email users (User.email u)
         = Raise (ValidationError msg_email_in_use)).
Proof.
  intros Hd. unfold UserSerializer_validate_email.
  destruct (qs_exists (filter (fun x => User.email x =? User.email u)%string users))
    eqn:E.
  - split; [reflexivity|]. split; [discriminate | now right].
  - assert (Hno : forall x, In x users -> User.email x <> User.email u).
    { intros x Hx Heq.
      assert (qs_exists (filter (fun x => User.email x =? User.email u)%string users)
              = true); [|congruence].
      apply qs_exists_iff. exists x. apply filter_In. split; [exact Hx|].
      now apply String.eqb_eq. }
    split; [intros Hin; now destruct (Hno u Hin)|]. split; [|now left].
    intros _. apply distinct_NoDup. cbn [map]. constructor.
    + intros Hin. apply in_map_iff in Hin. destruct Hin as [x [Hx Hxin]].
      now apply (Hno x Hxin).
    + now apply distinct_NoDup.
Qed.

Lemma validate_email_keeps_addresses_distinct_witness :
  UserSerializer_validate_email [Sample.host; Sample.guest] (User.email Sample.guest)
  = Raise (ValidationError msg_email_in_use).
Proof.
  exact (proj1 (validate_email_keeps_addresses_distinct [Sample.host; Sample.guest]
                  Sample.guest eq_refl)
               (or_intror (or_introl eq_refl))).
Defined.

(** ** The two checks, characterised *)

(** X23.  For ordered dates, [Booking.clean] raises "already booked" exactly
    when some stored row of the same property has nights in common with the
    booking; the status of that row plays no part, and neither does its key,
    so the stored row of the booking itself counts, while a row that only
    touches the range at its first or last day does not. *)
Theorem clean_reports_exactly_overlapping_rows d self :
  Booking.start_date self < Booking.end_date self ->
  (Booking_clean d self = Raise (ValidationError msg_already_booked)
   <-> exists b, In b (bookings d)
                 /\ Listing.property_id (Booking.property b)
                    = Listing.property_id (Booking.property self)
                 /\ Booking.start_date b < Booking.end_date self
                 /\ Booking.start_date self < Booking.end_date b)
  /\ (Booking_clean d self = Ok tt
      \/ Booking_clean d self = Raise (ValidationError msg_already_booked)).
Proof.
  intros Hlt. split.
  - rewrite (Booking_clean_conflict_iff d self Hlt : _ <-> _).
    unfold ranges_overlap. split; intros (b & Hin & Hp & Hs & He); exists b;
      repeat split; try assumption; lia.
  - unfold Booking_clean.
    destruct (Z.geb_spec (Booking.start_date self) (Booking.end_date self)); [lia|].
    match goal with |- context [qs_exists ?q] => destruct (qs_exists q) end;
      [now right | now left].
Qed.

Lemma clean_reports_exactly_overlapping_rows_witness :
  Booking_clean (Sample.db_with [Sample.booking_x Booking.canceled] [])
                (Sample.booking_y Booking.pending)
  = Raise (ValidationError msg_already_booked).
Proof.
  apply (proj1 (clean_reports_exactly_overlapping_rows
                  (Sample.db_with [Sample.booking_x Booking.canceled] [])
                  (Sample.booking_y Booking.pending) eq_refl)).
  exists (Sample.booking_x Booking.canceled).
  split; [now left|]. split; [reflexivity|]. split; reflexivity.
Defined.

(** X24.  For ordered dates and a given property,
    [BookingDetailSerializer.validate] raises "already booked" exactly when
    a stored row of that property is confirmed, has nights in common with
    the range, and is not the instance being updated. *)
Theorem validate_reports_exactly_confirmed_overlaps d instance attrs s e pid :
  attrs_start_date attrs = Some s ->
  attrs_end_date attrs = Some e ->
  attrs_property_id attrs = Some pid ->
  s < e ->
  (BookingDetailSerializer_validate d instance attrs
   = Raise (ValidationError msg_already_booked)
   <-> exists b, In b (bookings d)
                 /\ Listing.property_id (Booking.property b) = pid
                 /\ Booking.status b = Booking.confirmed
                 /\ Booking.start_date b < e /\ s < Booking.end_date b
                 /\ match instance with
                    | Some inst => Booking.booking_id b <> Booking.booking_id inst
                    | None => True
                    end).
Proof.
  intros Hs He Hp Hlt.
  rewrite (validate_conflict_iff d instance attrs s e pid Hs He Hp Hlt : _ <-> _).
  unfold ranges_overlap.
  split; intros (b & Hin & Hpb & Hst & Hov & Hinst); exists b.
  - repeat split; try assumption; try lia.
    destruct instance as [inst|]; [now apply Hinst | exact I].
  - destruct Hinst as [He' Hinst]. repeat split; try assumption; try lia.
    intros inst ->. exact Hinst.
Qed.

Lemma validate_reports_exactly_confirmed_overlaps_witness :
  BookingDetailSerializer_validate
    (Sample.db_with [Sample.booking_x Booking.confirmed] []) None Sample.attrs_y
  = Raise (ValidationError msg_already_booked).
Proof.
  apply (proj2 (validate_reports_exactly_confirmed_overlaps
                  (Sample.db_with [Sample.booking_x Booking.confirmed] []) None
                  Sample.attrs_y Sample.jan4 Sample.jan8
                  (Listing.property_id Sample.villa)
                  eq_refl eq_refl eq_refl eq_refl)).
  exists (Sample.booking_x Booking.confirmed).
  split; [now left|]. do 2 (split; [reflexivity|]).
  split; [reflexivity|]. split; [reflexivity | exact I].
Defined.

